(** * The target-independent pipeline of the Orc compiler

    A shallow embedding of [orc/orccompiler.c] together with the parts of
    [orc/orcprogram.h] that it reads, and the properties of the validator,
    the liveness/rename pass, the register allocator, the constant pool and
    the driver that the specification states.

    Conventions of the embedding:
    - a C [int] is a [Z]; where the source relies on 32-bit wrap-around
      (the constant pool) the wrap is written out with [int32];
    - the tables [vars], [valid_regs], [save_regs], [used_regs] and
      [alloc_regs] are total maps from the index to the cell, so that an
      access is defined for every index the code computes; whether such
      an index lies inside the C array is a separate predicate
      ([valid_var_index]);
    - [insns] is the list of the first [n_insns] cells of the C array;
      the arrays [dest_size], [dest_args] (2 cells) and [src_size],
      [src_args] (4 cells) are lists, read with [!!!] at an index inside
      the list;
    - a C truth value that is only ever tested and set to [TRUE] or
      [FALSE] is a [bool];
    - the compiler state is passed explicitly; a function that returns a
      value returns the new state and the value. *)

From Stdlib Require Import ZArith Lia.
From stdpp Require Import base numbers list strings pretty.

Local Open Scope Z_scope.

(** ** Constants of [orcprogram.h] *)

Definition ORC_N_REGS : Z := 32 * 4.
Definition ORC_N_INSNS : Z := 100.
Definition ORC_N_VARIABLES : Z := 20.
Definition ORC_GP_REG_BASE : Z := 32.
Definition ORC_VEC_REG_BASE : Z := 64.
Definition ORC_STATIC_OPCODE_N_SRC : nat := 4.
Definition ORC_STATIC_OPCODE_N_DEST : nat := 2.

(** The anonymous enumeration of the variable slots: D1-D4, S1-S8, C1-C8,
    P1-P8, T1-T8. *)
Definition ORC_VAR_D1 : Z := 0.
Definition ORC_VAR_S1 : Z := 4.
Definition ORC_VAR_C1 : Z := 12.
Definition ORC_VAR_P1 : Z := 20.
Definition ORC_VAR_T1 : Z := 28.

(** The kinds of a variable.  Modelled from the spec: the enumeration of
    the header at hand stops at [ORC_VAR_TYPE_PARAM]; the compiler also
    tests [ORC_VAR_TYPE_ACCUMULATOR], the sixth kind of the data model. *)
Inductive OrcVarType : Type :=
  | ORC_VAR_TYPE_TEMP
  | ORC_VAR_TYPE_SRC
  | ORC_VAR_TYPE_DEST
  | ORC_VAR_TYPE_CONST
  | ORC_VAR_TYPE_PARAM
  | ORC_VAR_TYPE_ACCUMULATOR.

#[global] Instance OrcVarType_eq_dec : EqDecision OrcVarType.
Proof. solve_decision. Defined.

(** Modelled from the spec: the declaration of [OrcCompileResult] is not
    among the sources.  These are the three values the compiler assigns or
    tests, in increasing severity; the zero of a freshly cleared context
    is [OK]. *)
Inductive OrcCompileResult : Type :=
  | ORC_COMPILE_RESULT_OK
  | ORC_COMPILE_RESULT_UNKNOWN_COMPILE
  | ORC_COMPILE_RESULT_UNKNOWN_PARSE.

#[global] Instance OrcCompileResult_eq_dec : EqDecision OrcCompileResult.
Proof. solve_decision. Defined.

(** Modelled from the spec: the flag masks of the static opcode descriptor
    are not among the sources.  Two distinct bits of [flags]. *)
Definition ORC_STATIC_OPCODE_ACCUMULATOR : Z := Z.shiftl 1 0.
Definition ORC_STATIC_OPCODE_SCALAR : Z := Z.shiftl 1 3.

(** ** Tables *)

(** [a[i] = x] on a table. *)
Definition upd {A : Type} (a : Z -> A) (i : Z) (x : A) : Z -> A :=
  fun k => if k =? i then x else a k.

(** ** Structures *)

(** [struct _OrcVariable], with the fields the compiler reads or writes.
    Modelled from the spec: [load_dest], [mask_alloc] and [aligned_data]
    are written by the compiler and not declared in the header at hand;
    they are the load flag of a Dest and two of the auxiliary register
    numbers of the data model. *)
Record OrcVariable : Type := {
  var_name : option string;
  var_size : Z;
  vartype : OrcVarType;
  used : bool;
  first_use : Z;
  last_use : Z;
  replaced : bool;
  replacement : Z;
  alloc : Z;
  load_dest : bool;
  ptr_register : Z;
  ptr_offset : Z;
  mask_alloc : Z;
  aligned_data : Z
}.

(** A cell of a cleared ([memset] to zero) variable table. *)
Definition zero_variable : OrcVariable := {|
  var_name := None; var_size := 0; vartype := ORC_VAR_TYPE_TEMP;
  used := false; first_use := 0; last_use := 0;
  replaced := false; replacement := 0; alloc := 0; load_dest := false;
  ptr_register := 0; ptr_offset := 0; mask_alloc := 0; aligned_data := 0 |}.

Definition set_var_name (x : option string) (v : OrcVariable) : OrcVariable :=
  {| var_name := x; var_size := var_size v; vartype := vartype v;
     used := used v; first_use := first_use v; last_use := last_use v;
     replaced := replaced v; replacement := replacement v; alloc := alloc v;
     load_dest := load_dest v; ptr_register := ptr_register v;
     ptr_offset := ptr_offset v; mask_alloc := mask_alloc v;
     aligned_data := aligned_data v |}.

Definition set_var_size (x : Z) (v : OrcVariable) : OrcVariable :=
  {| var_name := var_name v; var_size := x; vartype := vartype v;
     used := used v; first_use := first_use v; last_use := last_use v;
     replaced := replaced v; replacement := replacement v; alloc := alloc v;
     load_dest := load_dest v; ptr_register := ptr_register v;
     ptr_offset := ptr_offset v; mask_alloc := mask_alloc v;
     aligned_data := aligned_data v |}.

Definition set_vartype (x : OrcVarType) (v : OrcVariable) : OrcVariable :=
  {| var_name := var_name v; var_size := var_size v; vartype := x;
     used := used v; first_use := first_use v; last_use := last_use v;
     replaced := replaced v; replacement := replacement v; alloc := alloc v;
     load_dest := load_dest v; ptr_register := ptr_register v;
     ptr_offset := ptr_offset v; mask_alloc := mask_alloc v;
     aligned_data := aligned_data v |}.

Definition set_used (x : bool) (v : OrcVariable) : OrcVariable :=
  {| var_name := var_name v; var_size := var_size v; vartype := vartype v;
     used := x; first_use := first_use v; last_use := last_use v;
     replaced := replaced v; replacement := replacement v; alloc := alloc v;
     load_dest := load_dest v; ptr_register := ptr_register v;
     ptr_offset := ptr_offset v; mask_alloc := mask_alloc v;
     aligned_data := aligned_data v |}.

Definition set_first_use (x : Z) (v : OrcVariable) : OrcVariable :=
  {| var_name := var_name v; var_size := var_size v; vartype := vartype v;
     used := used v; first_use := x; last_use := last_use v;
     replaced := replaced v; replacement := replacement v; alloc := alloc v;
     load_dest := load_dest v; ptr_register := ptr_register v;
     ptr_offset := ptr_offset v; mask_alloc := mask_alloc v;
     aligned_data := aligned_data v |}.

Definition set_last_use (x : Z) (v : OrcVariable) : OrcVariable :=
  {| var_name := var_name v; var_size := var_size v; vartype := vartype v;
     used := used v; first_use := first_use v; last_use := x;
     replaced := replaced v; replacement := replacement v; alloc := alloc v;
     load_dest := load_dest v; ptr_register := ptr_register v;
     ptr_offset := ptr_offset v; mask_alloc := mask_alloc v;
     aligned_data := aligned_data v |}.

Definition set_replaced (x : bool) (v : OrcVariable) : OrcVariable :=
  {| var_name := var_name v; var_size := var_size v; vartype := vartype v;
     used := used v; first_use := first_use v; last_use := last_use v;
     replaced := x; replacement := replacement v; alloc := alloc v;
     load_dest := load_dest v; ptr_register := ptr_register v;
     ptr_offset := ptr_offset v; mask_alloc := mask_alloc v;
     aligned_data := aligned_data v |}.

Definition set_replacement (x : Z) (v : OrcVariable) : OrcVariable :=
  {| var_name := var_name v; var_size := var_size v; vartype := vartype v;
     used := used v; first_use := first_use v; last_use := last_use v;
     replaced := replaced v; replacement := x; alloc := alloc v;
     load_dest := load_dest v; ptr_register := ptr_register v;
     ptr_offset := ptr_offset v; mask_alloc := mask_alloc v;
     aligned_data := aligned_data v |}.

Definition set_alloc (x : Z) (v : OrcVariable) : OrcVariable :=
  {| var_name := var_name v; var_size := var_size v; vartype := vartype v;
     used := used v; first_use := first_use v; last_use := last_use v;
     replaced := replaced v; replacement := replacement v; alloc := x;
     load_dest := load_dest v; ptr_register := ptr_register v;
     ptr_offset := ptr_offset v; mask_alloc := mask_alloc v;
     aligned_data := aligned_data v |}.

Definition set_load_dest (x : bool) (v : OrcVariable) : OrcVariable :=
  {| var_name := var_name v; var_size := var_size v; vartype := vartype v;
     used := used v; first_use := first_use v; last_use := last_use v;
     replaced := replaced v; replacement := replacement v; alloc := alloc v;
     load_dest := x; ptr_register := ptr_register v;
     ptr_offset := ptr_offset v; mask_alloc := mask_alloc v;
     aligned_data := aligned_data v |}.

Definition set_ptr_register (x : Z) (v : OrcVariable) : OrcVariable :=
  {| var_name := var_name v; var_size := var_size v; vartype := vartype v;
     used := used v; first_use := first_use v; last_use := last_use v;
     replaced := replaced v; replacement := replacement v; alloc := alloc v;
     load_dest := load_dest v; ptr_register := x;
     ptr_offset := ptr_offset v; mask_alloc := mask_alloc v;
     aligned_data := aligned_data v |}.

Definition set_ptr_offset (x : Z) (v : OrcVariable) : OrcVariable :=
  {| var_name := var_name v; var_size := var_size v; vartype := vartype v;
     used := used v; first_use := first_use v; last_use := last_use v;
     replaced := replaced v; replacement := replacement v; alloc := alloc v;
     load_dest := load_dest v; ptr_register := ptr_register v;
     ptr_offset := x; mask_alloc := mask_alloc v;
     aligned_data := aligned_data v |}.

Definition set_mask_alloc (x : Z) (v : OrcVariable) : OrcVariable :=
  {| var_name := var_name v; var_size := var_size v; vartype := vartype v;
     used := used v; first_use := first_use v; last_use := last_use v;
     replaced := replaced v; replacement := replacement v; alloc := alloc v;
     load_dest := load_dest v; ptr_register := ptr_register v;
     ptr_offset := ptr_offset v; mask_alloc := x;
     aligned_data := aligned_data v |}.

Definition set_aligned_data (x : Z) (v : OrcVariable) : OrcVariable :=
  {| var_name := var_name v; var_size := var_size v; vartype := vartype v;
     used := used v; first_use := first_use v; last_use := last_use v;
     replaced := replaced v; replacement := replacement v; alloc := alloc v;
     load_dest := load_dest v; ptr_register := ptr_register v;
     ptr_offset := ptr_offset v; mask_alloc := mask_alloc v;
     aligned_data := x |}.

(** [struct _OrcRule]; the emit callback is an opaque address, [None] for
    a null pointer. *)
Record OrcRule : Type := {
  emit : option Z;
  emit_user : Z
}.

(** [struct _OrcStaticOpcode]: the name, the element size of each dest and
    src slot (0 for an unused slot) and the flags.  Modelled from the
    spec: [flags] is read by the compiler and not declared in the header
    at hand. *)
Record OrcStaticOpcode : Type := {
  opcode_name : string;
  dest_size : list Z;
  src_size : list Z;
  flags : Z
}.

(** [struct _OrcInstruction]; [rule] is [None] for a null pointer. *)
Record OrcInstruction : Type := {
  opcode : OrcStaticOpcode;
  dest_args : list Z;
  src_args : list Z;
  rule : option OrcRule
}.

Definition zero_opcode : OrcStaticOpcode :=
  {| opcode_name := ""; dest_size := [0; 0]; src_size := [0; 0; 0; 0];
     flags := 0 |}.

Definition zero_instruction : OrcInstruction :=
  {| opcode := zero_opcode; dest_args := [0; 0]; src_args := [0; 0; 0; 0];
     rule := None |}.

#[global] Instance OrcInstruction_inhabited : Inhabited OrcInstruction :=
  populate zero_instruction.

Definition set_dest_args (x : list Z) (i : OrcInstruction) : OrcInstruction :=
  {| opcode := opcode i; dest_args := x; src_args := src_args i;
     rule := rule i |}.

Definition set_src_args (x : list Z) (i : OrcInstruction) : OrcInstruction :=
  {| opcode := opcode i; dest_args := dest_args i; src_args := x;
     rule := rule i |}.

Definition set_rule (x : option OrcRule) (i : OrcInstruction) : OrcInstruction :=
  {| opcode := opcode i; dest_args := dest_args i; src_args := src_args i;
     rule := x |}.

(** Modelled from the spec: the declaration of the entries of the constant
    pool is not among the sources.  An entry records the 32-bit value it
    is filed under, a possibly assigned register and its use count. *)
Record OrcConstant : Type := {
  value : Z;
  alloc_reg : Z;
  use_count : Z
}.

(** [struct _OrcProgram], with the fields the driver reads or writes.
    Pointers to code are opaque addresses. *)
Record OrcProgram : Type := {
  prog_name : string;
  prog_insns : list OrcInstruction;
  prog_vars : Z -> OrcVariable;
  prog_n_temp_vars : Z;
  backup_func : option Z;
  code : Z;
  prog_asm_code : option string;
  code_size : Z
}.

Definition set_code (x : Z) (p : OrcProgram) : OrcProgram :=
  {| prog_name := prog_name p; prog_insns := prog_insns p;
     prog_vars := prog_vars p; prog_n_temp_vars := prog_n_temp_vars p;
     backup_func := backup_func p; code := x;
     prog_asm_code := prog_asm_code p; code_size := code_size p |}.

Definition set_prog_asm_code (x : option string) (p : OrcProgram) : OrcProgram :=
  {| prog_name := prog_name p; prog_insns := prog_insns p;
     prog_vars := prog_vars p; prog_n_temp_vars := prog_n_temp_vars p;
     backup_func := backup_func p; code := code p;
     prog_asm_code := x; code_size := code_size p |}.

Definition set_code_size (x : Z) (p : OrcProgram) : OrcProgram :=
  {| prog_name := prog_name p; prog_insns := prog_insns p;
     prog_vars := prog_vars p; prog_n_temp_vars := prog_n_temp_vars p;
     backup_func := backup_func p; code := code p;
     prog_asm_code := prog_asm_code p; code_size := x |}.

(** [struct _OrcCompiler], with the fields [orccompiler.c] reads or writes.
    [program] is the object the C field points to: the driver and the
    hooks see one and the same program.  [diagnostics] is the list of the
    messages handed to the debug subsystem, the most recent first.
    Modelled from the spec: [target_flags], [n_dup_vars], [result],
    [need_mask_regs], [alloc_loop_counter], [loop_counter], [constants]
    and [n_labels] are used by the compiler and not declared in the
    header at hand; they are the fields of the compiler context of the
    data model. *)
Record OrcCompiler : Type := {
  program : OrcProgram;
  target_flags : Z;
  insns : list OrcInstruction;
  vars : Z -> OrcVariable;
  n_temp_vars : Z;
  n_dup_vars : Z;
  error : bool;
  result : OrcCompileResult;
  valid_regs : Z -> Z;
  save_regs : Z -> Z;
  used_regs : Z -> Z;
  alloc_regs : Z -> Z;
  need_mask_regs : bool;
  alloc_loop_counter : bool;
  loop_counter : Z;
  tmpreg : Z;
  constants : list OrcConstant;
  asm_code : option string;
  codeptr : Z;
  n_labels : Z;
  diagnostics : list string
}.

Definition n_insns (c : OrcCompiler) : nat := length (insns c).
Definition n_constants (c : OrcCompiler) : nat := length (constants c).

Definition set_program (x : OrcProgram) (c : OrcCompiler) : OrcCompiler :=
  {| program := x; target_flags := target_flags c; insns := insns c;
     vars := vars c; n_temp_vars := n_temp_vars c; n_dup_vars := n_dup_vars c;
     error := error c; result := result c; valid_regs := valid_regs c;
     save_regs := save_regs c; used_regs := used_regs c;
     alloc_regs := alloc_regs c; need_mask_regs := need_mask_regs c;
     alloc_loop_counter := alloc_loop_counter c;
     loop_counter := loop_counter c; tmpreg := tmpreg c;
     constants := constants c; asm_code := asm_code c; codeptr := codeptr c;
     n_labels := n_labels c; diagnostics := diagnostics c |}.

Definition set_insns (x : list OrcInstruction) (c : OrcCompiler) : OrcCompiler :=
  {| program := program c; target_flags := target_flags c; insns := x;
     vars := vars c; n_temp_vars := n_temp_vars c; n_dup_vars := n_dup_vars c;
     error := error c; result := result c; valid_regs := valid_regs c;
     save_regs := save_regs c; used_regs := used_regs c;
     alloc_regs := alloc_regs c; need_mask_regs := need_mask_regs c;
     alloc_loop_counter := alloc_loop_counter c;
     loop_counter := loop_counter c; tmpreg := tmpreg c;
     constants := constants c; asm_code := asm_code c; codeptr := codeptr c;
     n_labels := n_labels c; diagnostics := diagnostics c |}.

Definition set_vars (x : Z -> OrcVariable) (c : OrcCompiler) : OrcCompiler :=
  {| program := program c; target_flags := target_flags c; insns := insns c;
     vars := x; n_temp_vars := n_temp_vars c; n_dup_vars := n_dup_vars c;
     error := error c; result := result c; valid_regs := valid_regs c;
     save_regs := save_regs c; used_regs := used_regs c;
     alloc_regs := alloc_regs c; need_mask_regs := need_mask_regs c;
     alloc_loop_counter := alloc_loop_counter c;
     loop_counter := loop_counter c; tmpreg := tmpreg c;
     constants := constants c; asm_code := asm_code c; codeptr := codeptr c;
     n_labels := n_labels c; diagnostics := diagnostics c |}.

Definition set_n_dup_vars (x : Z) (c : OrcCompiler) : OrcCompiler :=
  {| program := program c; target_flags := target_flags c; insns := insns c;
     vars := vars c; n_temp_vars := n_temp_vars c; n_dup_vars := x;
     error := error c; result := result c; valid_regs := valid_regs c;
     save_regs := save_regs c; used_regs := used_regs c;
     alloc_regs := alloc_regs c; need_mask_regs := need_mask_regs c;
     alloc_loop_counter := alloc_loop_counter c;
     loop_counter := loop_counter c; tmpreg := tmpreg c;
     constants := constants c; asm_code := asm_code c; codeptr := codeptr c;
     n_labels := n_labels c; diagnostics := diagnostics c |}.

Definition set_error (x : bool) (c : OrcCompiler) : OrcCompiler :=
  {| program := program c; target_flags := target_flags c; insns := insns c;
     vars := vars c; n_temp_vars := n_temp_vars c; n_dup_vars := n_dup_vars c;
     error := x; result := result c; valid_regs := valid_regs c;
     save_regs := save_regs c; used_regs := used_regs c;
     alloc_regs := alloc_regs c; need_mask_regs := need_mask_regs c;
     alloc_loop_counter := alloc_loop_counter c;
     loop_counter := loop_counter c; tmpreg := tmpreg c;
     constants := constants c; asm_code := asm_code c; codeptr := codeptr c;
     n_labels := n_labels c; diagnostics := diagnostics c |}.

Definition set_result (x : OrcCompileResult) (c : OrcCompiler) : OrcCompiler :=
  {| program := program c; target_flags := target_flags c; insns := insns c;
     vars := vars c; n_temp_vars := n_temp_vars c; n_dup_vars := n_dup_vars c;
     error := error c; result := x; valid_regs := valid_regs c;
     save_regs := save_regs c; used_regs := used_regs c;
     alloc_regs := alloc_regs c; need_mask_regs := need_mask_regs c;
     alloc_loop_counter := alloc_loop_counter c;
     loop_counter := loop_counter c; tmpreg := tmpreg c;
     constants := constants c; asm_code := asm_code c; codeptr := codeptr c;
     n_labels := n_labels c; diagnostics := diagnostics c |}.

Definition set_valid_regs (x : Z -> Z) (c : OrcCompiler) : OrcCompiler :=
  {| program := program c; target_flags := target_flags c; insns := insns c;
     vars := vars c; n_temp_vars := n_temp_vars c; n_dup_vars := n_dup_vars c;
     error := error c; result := result c; valid_regs := x;
     save_regs := save_regs c; used_regs := used_regs c;
     alloc_regs := alloc_regs c; need_mask_regs := need_mask_regs c;
     alloc_loop_counter := alloc_loop_counter c;
     loop_counter := loop_counter c; tmpreg := tmpreg c;
     constants := constants c; asm_code := asm_code c; codeptr := codeptr c;
     n_labels := n_labels c; diagnostics := diagnostics c |}.

Definition set_used_regs (x : Z -> Z) (c : OrcCompiler) : OrcCompiler :=
  {| program := program c; target_flags := target_flags c; insns := insns c;
     vars := vars c; n_temp_vars := n_temp_vars c; n_dup_vars := n_dup_vars c;
     error := error c; result := result c; valid_regs := valid_regs c;
     save_regs := save_regs c; used_regs := x;
     alloc_regs := alloc_regs c; need_mask_regs := need_mask_regs c;
     alloc_loop_counter := alloc_loop_counter c;
     loop_counter := loop_counter c; tmpreg := tmpreg c;
     constants := constants c; asm_code := asm_code c; codeptr := codeptr c;
     n_labels := n_labels c; diagnostics := diagnostics c |}.

Definition set_alloc_regs (x : Z -> Z) (c : OrcCompiler) : OrcCompiler :=
  {| program := program c; target_flags := target_flags c; insns := insns c;
     vars := vars c; n_temp_vars := n_temp_vars c; n_dup_vars := n_dup_vars c;
     error := error c; result := result c; valid_regs := valid_regs c;
     save_regs := save_regs c; used_regs := used_regs c;
     alloc_regs := x; need_mask_regs := need_mask_regs c;
     alloc_loop_counter := alloc_loop_counter c;
     loop_counter := loop_counter c; tmpreg := tmpreg c;
     constants := constants c; asm_code := asm_code c; codeptr := codeptr c;
     n_labels := n_labels c; diagnostics := diagnostics c |}.

Definition set_loop_counter (x : Z) (c : OrcCompiler) : OrcCompiler :=
  {| program := program c; target_flags := target_flags c; insns := insns c;
     vars := vars c; n_temp_vars := n_temp_vars c; n_dup_vars := n_dup_vars c;
     error := error c; result := result c; valid_regs := valid_regs c;
     save_regs := save_regs c; used_regs := used_regs c;
     alloc_regs := alloc_regs c; need_mask_regs := need_mask_regs c;
     alloc_loop_counter := alloc_loop_counter c;
     loop_counter := x; tmpreg := tmpreg c;
     constants := constants c; asm_code := asm_code c; codeptr := codeptr c;
     n_labels := n_labels c; diagnostics := diagnostics c |}.

Definition set_constants (x : list OrcConstant) (c : OrcCompiler) : OrcCompiler :=
  {| program := program c; target_flags := target_flags c; insns := insns c;
     vars := vars c; n_temp_vars := n_temp_vars c; n_dup_vars := n_dup_vars c;
     error := error c; result := result c; valid_regs := valid_regs c;
     save_regs := save_regs c; used_regs := used_regs c;
     alloc_regs := alloc_regs c; need_mask_regs := need_mask_regs c;
     alloc_loop_counter := alloc_loop_counter c;
     loop_counter := loop_counter c; tmpreg := tmpreg c;
     constants := x; asm_code := asm_code c; codeptr := codeptr c;
     n_labels := n_labels c; diagnostics := diagnostics c |}.

Definition set_asm_code (x : option string) (c : OrcCompiler) : OrcCompiler :=
  {| program := program c; target_flags := target_flags c; insns := insns c;
     vars := vars c; n_temp_vars := n_temp_vars c; n_dup_vars := n_dup_vars c;
     error := error c; result := result c; valid_regs := valid_regs c;
     save_regs := save_regs c; used_regs := used_regs c;
     alloc_regs := alloc_regs c; need_mask_regs := need_mask_regs c;
     alloc_loop_counter := alloc_loop_counter c;
     loop_counter := loop_counter c; tmpreg := tmpreg c;
     constants := constants c; asm_code := x; codeptr := codeptr c;
     n_labels := n_labels c; diagnostics := diagnostics c |}.

Definition set_n_labels (x : Z) (c : OrcCompiler) : OrcCompiler :=
  {| program := program c; target_flags := target_flags c; insns := insns c;
     vars := vars c; n_temp_vars := n_temp_vars c; n_dup_vars := n_dup_vars c;
     error := error c; result := result c; valid_regs := valid_regs c;
     save_regs := save_regs c; used_regs := used_regs c;
     alloc_regs := alloc_regs c; need_mask_regs := need_mask_regs c;
     alloc_loop_counter := alloc_loop_counter c;
     loop_counter := loop_counter c; tmpreg := tmpreg c;
     constants := constants c; asm_code := asm_code c; codeptr := codeptr c;
     n_labels := x; diagnostics := diagnostics c |}.

Definition set_diagnostics (x : list string) (c : OrcCompiler) : OrcCompiler :=
  {| program := program c; target_flags := target_flags c; insns := insns c;
     vars := vars c; n_temp_vars := n_temp_vars c; n_dup_vars := n_dup_vars c;
     error := error c; result := result c; valid_regs := valid_regs c;
     save_regs := save_regs c; used_regs := used_regs c;
     alloc_regs := alloc_regs c; need_mask_regs := need_mask_regs c;
     alloc_loop_counter := alloc_loop_counter c;
     loop_counter := loop_counter c; tmpreg := tmpreg c;
     constants := constants c; asm_code := asm_code c; codeptr := codeptr c;
     n_labels := n_labels c; diagnostics := x |}.

Definition set_save_regs (x : Z -> Z) (c : OrcCompiler) : OrcCompiler :=
  {| program := program c; target_flags := target_flags c; insns := insns c;
     vars := vars c; n_temp_vars := n_temp_vars c;
     n_dup_vars := n_dup_vars c; error := error c; result := result c;
     valid_regs := valid_regs c; save_regs := x; used_regs := used_regs c;
     alloc_regs := alloc_regs c; need_mask_regs := need_mask_regs c;
     alloc_loop_counter := alloc_loop_counter c;
     loop_counter := loop_counter c; tmpreg := tmpreg c;
     constants := constants c; asm_code := asm_code c; codeptr := codeptr c;
     n_labels := n_labels c; diagnostics := diagnostics c |}.

Definition set_need_mask_regs (x : bool) (c : OrcCompiler) : OrcCompiler :=
  {| program := program c; target_flags := target_flags c; insns := insns c;
     vars := vars c; n_temp_vars := n_temp_vars c;
     n_dup_vars := n_dup_vars c; error := error c; result := result c;
     valid_regs := valid_regs c; save_regs := save_regs c;
     used_regs := used_regs c; alloc_regs := alloc_regs c;
     need_mask_regs := x; alloc_loop_counter := alloc_loop_counter c;
     loop_counter := loop_counter c; tmpreg := tmpreg c;
     constants := constants c; asm_code := asm_code c; codeptr := codeptr c;
     n_labels := n_labels c; diagnostics := diagnostics c |}.

Definition set_alloc_loop_counter (x : bool) (c : OrcCompiler) : OrcCompiler :=
  {| program := program c; target_flags := target_flags c; insns := insns c;
     vars := vars c; n_temp_vars := n_temp_vars c;
     n_dup_vars := n_dup_vars c; error := error c; result := result c;
     valid_regs := valid_regs c; save_regs := save_regs c;
     used_regs := used_regs c; alloc_regs := alloc_regs c;
     need_mask_regs := need_mask_regs c; alloc_loop_counter := x;
     loop_counter := loop_counter c; tmpreg := tmpreg c;
     constants := constants c; asm_code := asm_code c; codeptr := codeptr c;
     n_labels := n_labels c; diagnostics := diagnostics c |}.

Definition set_tmpreg (x : Z) (c : OrcCompiler) : OrcCompiler :=
  {| program := program c; target_flags := target_flags c; insns := insns c;
     vars := vars c; n_temp_vars := n_temp_vars c;
     n_dup_vars := n_dup_vars c; error := error c; result := result c;
     valid_regs := valid_regs c; save_regs := save_regs c;
     used_regs := used_regs c; alloc_regs := alloc_regs c;
     need_mask_regs := need_mask_regs c;
     alloc_loop_counter := alloc_loop_counter c;
     loop_counter := loop_counter c; tmpreg := x; constants := constants c;
     asm_code := asm_code c; codeptr := codeptr c; n_labels := n_labels c;
     diagnostics := diagnostics c |}.

Definition set_codeptr (x : Z) (c : OrcCompiler) : OrcCompiler :=
  {| program := program c; target_flags := target_flags c; insns := insns c;
     vars := vars c; n_temp_vars := n_temp_vars c;
     n_dup_vars := n_dup_vars c; error := error c; result := result c;
     valid_regs := valid_regs c; save_regs := save_regs c;
     used_regs := used_regs c; alloc_regs := alloc_regs c;
     need_mask_regs := need_mask_regs c;
     alloc_loop_counter := alloc_loop_counter c;
     loop_counter := loop_counter c; tmpreg := tmpreg c;
     constants := constants c; asm_code := asm_code c; codeptr := x;
     n_labels := n_labels c; diagnostics := diagnostics c |}.

(** [compiler->vars[i].field = ...]: one cell of the variable table is
    rewritten. *)
Definition with_var (i : Z) (f : OrcVariable -> OrcVariable) (c : OrcCompiler)
  : OrcCompiler :=
  set_vars (upd (vars c) i (f (vars c i))) c.

(** [compiler->insns[j].field = ...]. *)
Definition with_insn (j : nat) (f : OrcInstruction -> OrcInstruction)
    (c : OrcCompiler) : OrcCompiler :=
  set_insns (<[j := f (insns c !!! j)]> (insns c)) c.

(** [struct _OrcTarget]: the register base of the vector pool and the
    hooks of the backend.  The rule lookup [orc_target_get_rule] of the
    target registry is a field here, as the compiler only calls it.
    Modelled from the spec: the hooks [load_constant] and
    [get_default_flags] are called by the compiler and not declared in
    the header at hand. *)
Record OrcTarget : Type := {
  target_name : string;
  data_register_offset : Z;
  compiler_init : OrcCompiler -> OrcCompiler;
  compile : OrcCompiler -> OrcCompiler;
  load_constant : OrcCompiler -> Z -> Z -> Z -> OrcCompiler;
  get_default_flags : Z;
  orc_target_get_rule : OrcStaticOpcode -> Z -> option OrcRule
}.

(** Modelled from the spec: the macro [ORC_COMPILER_ERROR] is not among the
    sources.  It sets [compiler->error] and writes the formatted message
    through the debug subsystem. *)
Definition ORC_COMPILER_ERROR (msg : string) (c : OrcCompiler) : OrcCompiler :=
  set_diagnostics (msg :: diagnostics c) (set_error true c).

(** ** Control flow *)

(** The outcome of a loop body: fall through to the next iteration with a
    state, or leave the enclosing function with its result. *)
Inductive flow (St R : Type) : Type :=
  | Next (s : St)
  | Return (r : R).
Arguments Next {St R} s.
Arguments Return {St R} r.

(** [for (i = start; i < start + count; i++) body], where the body may
    return from the function. *)
Fixpoint for_from {St R : Type} (start : nat) (count : nat)
    (body : nat -> St -> flow St R) (s : St) : flow St R :=
  match count with
  | O => Next s
  | S n =>
      match body start s with
      | Next s' => for_from (S start) n body s'
      | Return r => Return r
      end
  end.

(** [for (i = 0; i < n; i++) body] without early exit. *)
Definition for_loop {St : Type} (n : nat) (body : nat -> St -> St) (s : St)
  : St :=
  fold_left (fun s i => body i s) (seq 0 n) s.

(** ** The register allocator: [orc_compiler_allocate_register] *)

(** The body shared by the hits of both scans: the refcount of [reg] goes
    up and the register is marked as touched. *)
Definition take_register (reg : Z) (c : OrcCompiler) : OrcCompiler :=
  set_used_regs (upd (used_regs c) reg 1)
    (set_alloc_regs (upd (alloc_regs c) reg (alloc_regs c reg + 1)) c).

Definition orc_compiler_allocate_register (target : OrcTarget)
    (compiler : OrcCompiler) (data_reg : bool) : OrcCompiler * Z :=
  let offset :=
    if data_reg then data_register_offset target else ORC_GP_REG_BASE in
  let roff := 0 in
  match
    for_from 0 32 (fun i (_ : unit) =>
      let reg := offset + Z.land (roff + Z.of_nat i) 0x1f in
      if negb (valid_regs compiler reg =? 0) &&
         (save_regs compiler reg =? 0) &&
         (alloc_regs compiler reg =? 0)
      then Return (take_register reg compiler, reg)
      else Next ()) ()
  with
  | Return r => r
  | Next _ =>
      match
        for_from 0 32 (fun i (_ : unit) =>
          let reg := offset + Z.land (roff + Z.of_nat i) 0x1f in
          if negb (valid_regs compiler reg =? 0) &&
             (alloc_regs compiler reg =? 0)
          then Return (take_register reg compiler, reg)
          else Next ()) ()
      with
      | Return r => r
      | Next _ =>
          let compiler :=
            ORC_COMPILER_ERROR
              ("register overflow for " +:+
               (if data_reg then "vector" else "gp") +:+ " reg") compiler in
          let compiler :=
            set_result ORC_COMPILE_RESULT_UNKNOWN_COMPILE compiler in
          (compiler, 0)
      end
  end.

(** ** The validator: [orc_compiler_check_sizes] *)


Definition dest_size_mismatch_msg (opcode : OrcStaticOpcode) (j : nat)
    (actual declared : Z) : string :=
  "size mismatch, opcode " +:+ opcode_name opcode +:+ " dest[" +:+
  pretty j +:+ "] is " +:+ pretty actual +:+ " should be " +:+ pretty declared.

Definition src_size_mismatch_msg (opcode : OrcStaticOpcode) (j : nat)
    (actual declared : Z) : string :=
  "size mismatch, opcode " +:+ opcode_name opcode +:+ " src[" +:+
  pretty j +:+ "] is " +:+ pretty actual +:+ " should be " +:+ pretty declared.

Definition scalar_msg (opcode : OrcStaticOpcode) : string :=
  "opcode " +:+ opcode_name opcode +:+ " requires const or param source".

Definition orc_compiler_check_sizes (compiler : OrcCompiler) : OrcCompiler :=
  match
    for_from 0 (n_insns compiler) (fun i (_ : unit) =>
      let insn := insns compiler !!! i in
      let opcode := opcode insn in
      match
        for_from 0 ORC_STATIC_OPCODE_N_DEST (fun j (_ : unit) =>
          if dest_size opcode !!! j =? 0 then Next ()
          else if negb (dest_size opcode !!! j =?
                        var_size (vars compiler (dest_args insn !!! j)))
          then
            Return
              (set_result ORC_COMPILE_RESULT_UNKNOWN_PARSE
                 (ORC_COMPILER_ERROR
                    (dest_size_mismatch_msg opcode j
                       (var_size (vars compiler (dest_args insn !!! j)))
                       (dest_size opcode !!! j)) compiler))
          else Next ()) ()
      with
      | Return r => Return r
      | Next _ =>
          for_from 0 ORC_STATIC_OPCODE_N_SRC (fun j (_ : unit) =>
            if src_size opcode !!! j =? 0 then Next ()
            else if negb (src_size opcode !!! j =?
                          var_size (vars compiler (src_args insn !!! j))) &&
                    negb (bool_decide
                            (vartype (vars compiler (src_args insn !!! j)) =
                             ORC_VAR_TYPE_PARAM)) &&
                    negb (bool_decide
                            (vartype (vars compiler (src_args insn !!! j)) =
                             ORC_VAR_TYPE_CONST))
            then
              Return
                (set_result ORC_COMPILE_RESULT_UNKNOWN_PARSE
                   (ORC_COMPILER_ERROR
                      (src_size_mismatch_msg opcode j
                         (var_size (vars compiler (src_args insn !!! j)))
                         (src_size opcode !!! j)) compiler))
            else if negb (Z.land (flags opcode) ORC_STATIC_OPCODE_SCALAR =? 0) &&
                    (1 <=? Z.of_nat j) &&
                    negb (bool_decide
                            (vartype (vars compiler (src_args insn !!! j)) =
                             ORC_VAR_TYPE_PARAM)) &&
                    negb (bool_decide
                            (vartype (vars compiler (src_args insn !!! j)) =
                             ORC_VAR_TYPE_CONST))
            then
              Return
                (set_result ORC_COMPILE_RESULT_UNKNOWN_PARSE
                   (ORC_COMPILER_ERROR (scalar_msg opcode) compiler))
            else Next ()) ()
      end) ()
  with
  | Return r => r
  | Next _ => compiler
  end.

(** ** The rule binder: [orc_compiler_assign_rules] *)

Definition rule_missing (r : option OrcRule) : bool :=
  match r with
  | None => true
  | Some r => match emit r with None => true | Some _ => false end
  end.

Definition orc_compiler_assign_rules (target : OrcTarget)
    (compiler : OrcCompiler) : OrcCompiler :=
  match
    for_from 0 (n_insns compiler) (fun i compiler =>
      let compiler :=
        with_insn i
          (set_rule (orc_target_get_rule target
                       (opcode (insns compiler !!! i))
                       (target_flags compiler))) compiler in
      if rule_missing (rule (insns compiler !!! i)) then
        Return
          (set_result ORC_COMPILE_RESULT_UNKNOWN_COMPILE
             (ORC_COMPILER_ERROR
                ("No rule for: " +:+
                 opcode_name (opcode (insns compiler !!! i)) +:+
                 " on target " +:+ target_name target) compiler))
      else Next compiler) compiler
  with
  | Return r => r
  | Next compiler => compiler
  end.

(** ** The duplicate-temporary factory: [orc_compiler_dup_temporary] *)

(** The name written by [sprintf ("%s.dup%d", name, j)].  The source does
    not define the call on a null name; the model leaves the name null. *)
Definition dup_name (donor : option string) (j : Z) : option string :=
  match donor with
  | Some s => Some (s +:+ ".dup" +:+ pretty j)
  | None => None
  end.

Definition orc_compiler_dup_temporary (compiler : OrcCompiler) (var : Z)
    (j : Z) : OrcCompiler * Z :=
  let i := ORC_VAR_T1 + n_temp_vars compiler + n_dup_vars compiler in
  let compiler := with_var i (set_vartype ORC_VAR_TYPE_TEMP) compiler in
  let compiler :=
    with_var i (set_var_size (var_size (vars compiler var))) compiler in
  let compiler :=
    with_var i (set_var_name (dup_name (var_name (vars compiler var)) j))
      compiler in
  let compiler := set_n_dup_vars (n_dup_vars compiler + 1) compiler in
  (compiler, i).

(** ** Liveness and renaming: [orc_compiler_rewrite_vars] *)

(** The body of the loop over the src slots, for slot [k] of
    instruction [j]. *)
Definition rewrite_vars_src (j k : nat) (compiler : OrcCompiler)
  : OrcCompiler :=
  let insn := insns compiler !!! j in
  let opcode := opcode insn in
  if src_size opcode !!! k =? 0 then compiler
  else
    let var := src_args insn !!! k in
    let compiler :=
      if bool_decide (vartype (vars compiler var) = ORC_VAR_TYPE_DEST)
      then with_var var (set_load_dest true) compiler
      else compiler in
    let actual_var := var in
    let '(actual_var, compiler) :=
      if replaced (vars compiler var) then
        let actual_var := replacement (vars compiler var) in
        (actual_var,
         with_insn j
           (fun insn => set_src_args (<[k := actual_var]> (src_args insn)) insn)
           compiler)
      else (actual_var, compiler) in
    let compiler :=
      if negb (used (vars compiler var)) then
        let compiler :=
          if bool_decide (vartype (vars compiler var) = ORC_VAR_TYPE_TEMP)
          then
            set_result ORC_COMPILE_RESULT_UNKNOWN_PARSE
              (ORC_COMPILER_ERROR "using uninitialized temp var" compiler)
          else compiler in
        let compiler := with_var var (set_used true) compiler in
        with_var var (set_first_use (Z.of_nat j)) compiler
      else compiler in
    with_var actual_var (set_last_use (Z.of_nat j)) compiler.

(** One of the kind checks on a dest slot. *)
Definition dest_check (cond : bool) (msg : string) (compiler : OrcCompiler)
  : OrcCompiler :=
  if cond then
    set_result ORC_COMPILE_RESULT_UNKNOWN_PARSE
      (ORC_COMPILER_ERROR msg compiler)
  else compiler.

(** The body of the loop over the dest slots, for slot [k] of
    instruction [j]. *)
Definition rewrite_vars_dest (j k : nat) (compiler : OrcCompiler)
  : OrcCompiler :=
  let insn := insns compiler !!! j in
  let opcode := opcode insn in
  if dest_size opcode !!! k =? 0 then compiler
  else
    let var := dest_args insn !!! k in
    let compiler :=
      dest_check (bool_decide (vartype (vars compiler var) = ORC_VAR_TYPE_SRC))
        "using src var as dest" compiler in
    let compiler :=
      dest_check
        (bool_decide (vartype (vars compiler var) = ORC_VAR_TYPE_CONST))
        "using const var as dest" compiler in
    let compiler :=
      dest_check
        (bool_decide (vartype (vars compiler var) = ORC_VAR_TYPE_PARAM))
        "using param var as dest" compiler in
    let compiler :=
      if negb (Z.land (flags opcode) ORC_STATIC_OPCODE_ACCUMULATOR =? 0) then
        dest_check
          (negb (bool_decide
                   (vartype (vars compiler var) = ORC_VAR_TYPE_ACCUMULATOR)))
          "accumulating opcode to non-accumulator dest" compiler
      else
        dest_check
          (bool_decide
             (vartype (vars compiler var) = ORC_VAR_TYPE_ACCUMULATOR))
          "non-accumulating opcode to accumulator dest" compiler in
    let actual_var := var in
    let '(actual_var, compiler) :=
      if replaced (vars compiler var) then
        let actual_var := replacement (vars compiler var) in
        (actual_var,
         with_insn j
           (fun insn =>
              set_dest_args (<[k := actual_var]> (dest_args insn)) insn)
           compiler)
      else (actual_var, compiler) in
    let '(actual_var, compiler) :=
      if negb (used (vars compiler var)) then
        let compiler := with_var actual_var (set_used true) compiler in
        (actual_var,
         with_var actual_var (set_first_use (Z.of_nat j)) compiler)
      else if bool_decide (vartype (vars compiler var) = ORC_VAR_TYPE_TEMP)
      then
        let '(compiler, actual_var) :=
          orc_compiler_dup_temporary compiler var (Z.of_nat j) in
        let compiler := with_var var (set_replaced true) compiler in
        let compiler := with_var var (set_replacement actual_var) compiler in
        let compiler :=
          with_insn j
            (fun insn =>
               set_dest_args (<[k := actual_var]> (dest_args insn)) insn)
            compiler in
        let compiler := with_var actual_var (set_used true) compiler in
        (actual_var,
         with_var actual_var (set_first_use (Z.of_nat j)) compiler)
      else (actual_var, compiler) in
    with_var actual_var (set_last_use (Z.of_nat j)) compiler.

(** The body of the loop over the instructions. *)
Definition rewrite_vars_insn (j : nat) (compiler : OrcCompiler)
  : OrcCompiler :=
  let compiler :=
    for_loop ORC_STATIC_OPCODE_N_SRC (rewrite_vars_src j) compiler in
  for_loop ORC_STATIC_OPCODE_N_DEST (rewrite_vars_dest j) compiler.

Definition orc_compiler_rewrite_vars (compiler : OrcCompiler) : OrcCompiler :=
  for_loop (n_insns compiler) rewrite_vars_insn compiler.

(** ** Global register allocation: [orc_compiler_global_reg_alloc] *)

(** [var->alloc = orc_compiler_allocate_register (compiler, data_reg)] and
    its siblings: the register is allocated, then stored in a field of
    variable [i]. *)
Definition allocate_into (target : OrcTarget) (data_reg : bool) (i : Z)
    (store : Z -> OrcVariable -> OrcVariable) (compiler : OrcCompiler)
  : OrcCompiler :=
  let '(compiler, reg) :=
    orc_compiler_allocate_register target compiler data_reg in
  with_var i (store reg) compiler.

(** The [switch] on the kind of variable [i].  The [default] case of the
    source is for values outside the enumeration, which [OrcVarType]
    does not have. *)
Definition global_reg_alloc_var (target : OrcTarget) (i : Z)
    (compiler : OrcCompiler) : OrcCompiler :=
  match vartype (vars compiler i) with
  | ORC_VAR_TYPE_CONST | ORC_VAR_TYPE_PARAM | ORC_VAR_TYPE_ACCUMULATOR =>
      let compiler := with_var i (set_first_use (-1)) compiler in
      let compiler := with_var i (set_last_use (-1)) compiler in
      allocate_into target true i set_alloc compiler
  | ORC_VAR_TYPE_SRC =>
      let compiler := allocate_into target false i set_ptr_register compiler in
      if need_mask_regs compiler then
        let compiler := allocate_into target true i set_mask_alloc compiler in
        let compiler := allocate_into target false i set_ptr_offset compiler in
        allocate_into target true i set_aligned_data compiler
      else compiler
  | ORC_VAR_TYPE_DEST =>
      allocate_into target false i set_ptr_register compiler
  | ORC_VAR_TYPE_TEMP => compiler
  end.

(** The loop over the variable table, left by [break] once an error is
    latched. *)
Definition global_reg_alloc_vars (target : OrcTarget) (compiler : OrcCompiler)
  : OrcCompiler :=
  match
    for_from 0 (Z.to_nat ORC_N_VARIABLES) (fun i compiler =>
      match var_name (vars compiler (Z.of_nat i)) with
      | None => Next compiler
      | Some _ =>
          let compiler := global_reg_alloc_var target (Z.of_nat i) compiler in
          if error compiler then Return compiler else Next compiler
      end) compiler
  with
  | Return compiler => compiler
  | Next compiler => compiler
  end.

Definition orc_compiler_global_reg_alloc (target : OrcTarget)
    (compiler : OrcCompiler) : OrcCompiler :=
  let compiler := global_reg_alloc_vars target compiler in
  if alloc_loop_counter compiler && negb (error compiler) then
    let '(compiler, reg) :=
      orc_compiler_allocate_register target compiler false in
    let compiler := set_loop_counter reg compiler in
    if loop_counter compiler =? 0 then
      let compiler := set_error false compiler in
      set_result ORC_COMPILE_RESULT_OK compiler
    else compiler
  else compiler.

(** ** Local register allocation: [orc_compiler_rewrite_vars2] *)

(** Chaining of src1 to dest at instruction [j]. *)
Definition rewrite_vars2_chain (target : OrcTarget) (j : nat)
    (compiler : OrcCompiler) : OrcCompiler :=
  let insn := insns compiler !!! j in
  if (Z.land (flags (opcode insn)) ORC_STATIC_OPCODE_ACCUMULATOR =? 0) &&
     (dest_size (opcode insn) !!! 1%nat =? 0)
  then
    let src1 := src_args insn !!! 0%nat in
    let dest := dest_args insn !!! 0%nat in
    if last_use (vars compiler src1) =? Z.of_nat j then
      let compiler :=
        if first_use (vars compiler src1) =? Z.of_nat j then
          let '(compiler, k) :=
            orc_compiler_allocate_register target compiler true in
          with_var src1 (set_alloc k) compiler
        else compiler in
      let compiler :=
        set_alloc_regs
          (upd (alloc_regs compiler) (alloc (vars compiler src1))
             (alloc_regs compiler (alloc (vars compiler src1)) + 1))
          compiler in
      with_var dest (set_alloc (alloc (vars compiler src1))) compiler
    else compiler
  else compiler.

(** The live branch of [if (0) ... else ...]: an [alloc] of 1 on src2 is
    reset to 0. *)
Definition rewrite_vars2_immediate (j : nat) (compiler : OrcCompiler)
  : OrcCompiler :=
  let src2 := src_args (insns compiler !!! j) !!! 1%nat in
  if alloc (vars compiler src2) =? 1 then
    with_var src2 (set_alloc 0) compiler
  else compiler.

(** Variables first used at [j] get a vector register. *)
Definition rewrite_vars2_birth (target : OrcTarget) (j : nat) (i : nat)
    (compiler : OrcCompiler) : OrcCompiler :=
  match var_name (vars compiler (Z.of_nat i)) with
  | None => compiler
  | Some _ =>
      if first_use (vars compiler (Z.of_nat i)) =? Z.of_nat j then
        if negb (alloc (vars compiler (Z.of_nat i)) =? 0) then compiler
        else
          let '(compiler, k) :=
            orc_compiler_allocate_register target compiler true in
          with_var (Z.of_nat i) (set_alloc k) compiler
      else compiler
  end.

(** Variables last used at [j] give their register back. *)
Definition rewrite_vars2_death (j : nat) (i : nat) (compiler : OrcCompiler)
  : OrcCompiler :=
  match var_name (vars compiler (Z.of_nat i)) with
  | None => compiler
  | Some _ =>
      if last_use (vars compiler (Z.of_nat i)) =? Z.of_nat j then
        set_alloc_regs
          (upd (alloc_regs compiler) (alloc (vars compiler (Z.of_nat i)))
             (alloc_regs compiler (alloc (vars compiler (Z.of_nat i))) - 1))
          compiler
      else compiler
  end.

(** The body of the loop over the instructions. *)
Definition rewrite_vars2_insn (target : OrcTarget) (j : nat)
    (compiler : OrcCompiler) : OrcCompiler :=
  let compiler := rewrite_vars2_chain target j compiler in
  let compiler := rewrite_vars2_immediate j compiler in
  let compiler :=
    for_loop (Z.to_nat ORC_N_VARIABLES) (rewrite_vars2_birth target j)
      compiler in
  for_loop (Z.to_nat ORC_N_VARIABLES) (rewrite_vars2_death j) compiler.

Definition orc_compiler_rewrite_vars2 (target : OrcTarget)
    (compiler : OrcCompiler) : OrcCompiler :=
  for_loop (n_insns compiler) (rewrite_vars2_insn target) compiler.

(** ** Assembly buffer and labels *)

(** The text is cut to the 198 characters that [vsnprintf (tmp, 200 - 1)]
    keeps, and appended to the buffer, which may be null at first. *)
Definition orc_compiler_append_code (p : OrcCompiler) (formatted : string)
  : OrcCompiler :=
  let tmp := String.substring 0 198 formatted in
  set_asm_code (Some (default "" (asm_code p) +:+ tmp)) p.

Definition orc_compiler_label_new (compiler : OrcCompiler) : OrcCompiler * Z :=
  (set_n_labels (n_labels compiler + 1) compiler, n_labels compiler).

(** ** The constant pool: [orc_compiler_get_constant] *)

(** A C [int] after an operation that may leave the 32-bit range. *)
Definition int32 (z : Z) : Z := (z + 2 ^ 31) mod 2 ^ 32 - 2 ^ 31.

(** The value a constant is filed under: the value of [value] after the
    first statement of [orc_compiler_get_constant].  A left shift that
    reaches the sign bit gives the two's complement result. *)
Definition canonical_constant (size value : Z) : Z :=
  if size <? 4 then
    let value :=
      if size <? 2 then
        let value := Z.land value 0xff in
        Z.lor value (int32 (Z.shiftl value 8))
      else value in
    let value := Z.land value 0xffff in
    Z.lor value (int32 (Z.shiftl value 16))
  else value.

Definition zero_constant : OrcConstant :=
  {| value := 0; alloc_reg := 0; use_count := 0 |}.

(** [constants[i].value]. *)
Definition constant_value (pool : list OrcConstant) (i : nat) : Z :=
  value (default zero_constant (pool !! i)).

(** The search loop: the index of the first entry filed under [value], or
    [n_constants]. *)
Definition find_constant (compiler : OrcCompiler) (value : Z) : nat :=
  match
    for_from 0 (n_constants compiler) (fun i (_ : unit) =>
      if constant_value (constants compiler) i =? value
      then Return i else Next ()) ()
  with
  | Return i => i
  | Next _ => n_constants compiler
  end.

(** [constants[i].use_count++]. *)
Definition count_use (k : OrcConstant) : OrcConstant :=
  {| value := value k; alloc_reg := alloc_reg k;
     use_count := use_count k + 1 |}.

(** The pool part of [orc_compiler_get_constant]: the value is made
    canonical, looked up, appended on a miss, and its use is counted.
    Returns the state, the index of the entry and the canonical value. *)
Definition get_constant_entry (compiler : OrcCompiler) (size value : Z)
  : OrcCompiler * nat * Z :=
  let value := canonical_constant size value in
  let i := find_constant compiler value in
  let compiler :=
    if bool_decide (i = n_constants compiler) then
      set_constants
        (constants compiler ++
         [{| value := value; alloc_reg := 0; use_count := 0 |}]) compiler
    else compiler in
  let compiler :=
    set_constants
      (alter count_use i (constants compiler)) compiler in
  (compiler, i, value).

Definition orc_compiler_load_constant (target : OrcTarget)
    (compiler : OrcCompiler) (reg size value : Z) : OrcCompiler :=
  load_constant target compiler reg size value.

Definition orc_compiler_get_constant (target : OrcTarget)
    (compiler : OrcCompiler) (size value : Z) : OrcCompiler * Z :=
  let '(compiler, i, value) := get_constant_entry compiler size value in
  let entry := default zero_constant (constants compiler !! i) in
  if negb (alloc_reg entry =? 0) then (compiler, alloc_reg entry)
  else
    let compiler :=
      orc_compiler_load_constant target compiler (tmpreg compiler) size value in
    (compiler, tmpreg compiler).

(** ** Compiler flags *)

(** [flag_list] is the split value of the environment variable, [None]
    when the variable is not set. *)
Definition orc_compiler_flag_check (flag_list : option (list string))
    (flag : string) : bool :=
  match flag_list with
  | None => false
  | Some l => bool_decide (flag ∈ l)
  end.

(** ** The driver: [orc_program_compile_full] *)

(** The context after [memset (compiler, 0, sizeof (OrcCompiler))] and the
    assignment of [program] and [target_flags]. *)
Definition zero_compiler (program : OrcProgram) (flags : Z) : OrcCompiler := {|
  program := program; target_flags := flags; insns := [];
  vars := fun _ => zero_variable; n_temp_vars := 0; n_dup_vars := 0;
  error := false; result := ORC_COMPILE_RESULT_OK;
  valid_regs := fun _ => 0; save_regs := fun _ => 0;
  used_regs := fun _ => 0; alloc_regs := fun _ => 0;
  need_mask_regs := false; alloc_loop_counter := false; loop_counter := 0;
  tmpreg := 0; constants := []; asm_code := None; codeptr := 0;
  n_labels := 0; diagnostics := [] |}.

(** The two [memcpy] of the program into the context and the counters. *)
Definition copy_program (compiler : OrcCompiler) : OrcCompiler :=
  let compiler := set_insns (prog_insns (program compiler)) compiler in
  let compiler := set_vars (prog_vars (program compiler)) compiler in
  {| program := program compiler; target_flags := target_flags compiler;
     insns := insns compiler; vars := vars compiler;
     n_temp_vars := prog_n_temp_vars (program compiler); n_dup_vars := 0;
     error := error compiler; result := result compiler;
     valid_regs := valid_regs compiler; save_regs := save_regs compiler;
     used_regs := used_regs compiler; alloc_regs := alloc_regs compiler;
     need_mask_regs := need_mask_regs compiler;
     alloc_loop_counter := alloc_loop_counter compiler;
     loop_counter := loop_counter compiler; tmpreg := tmpreg compiler;
     constants := constants compiler; asm_code := asm_code compiler;
     codeptr := codeptr compiler; n_labels := n_labels compiler;
     diagnostics := diagnostics compiler |}.

(** [for (i = 0; i < 32; i++) compiler->valid_regs[i] = 1;] *)
Definition mark_valid_regs (compiler : OrcCompiler) : OrcCompiler :=
  for_loop 32 (fun i compiler =>
    set_valid_regs (upd (valid_regs compiler) (Z.of_nat i) 1) compiler)
    compiler.

(** The context on which the driver calls the [compiler_init] hook of the
    target: cleared, bound to the program, with the copies taken and the
    default valid registers marked. *)
Definition context_before_init (program : OrcProgram) (flags : Z)
  : OrcCompiler :=
  mark_valid_regs (copy_program (zero_compiler program flags)).

Section Driver.

(** The state of the environment and the collaborators outside the
    compiler: the [backup] flag, the entry point of the emulator and the
    code-memory allocator. *)
Variable _orc_compiler_flag_backup : bool.
Variable orc_executor_emulate : Z.
Variable orc_compiler_allocate_codemem : OrcCompiler -> OrcCompiler.

(** The code after the label [error]. *)
Definition compile_failed (compiler : OrcCompiler)
  : OrcCompileResult * OrcProgram :=
  let result := result compiler in
  let result :=
    if bool_decide (result = ORC_COMPILE_RESULT_OK)
    then ORC_COMPILE_RESULT_UNKNOWN_COMPILE else result in
  (result, program compiler).

(** The code of the success path after the last check of the flag. *)
Definition compile_succeeded (compiler : OrcCompiler)
  : OrcCompileResult * OrcProgram :=
  let compiler :=
    set_program (set_prog_asm_code (asm_code compiler) (program compiler))
      compiler in
  let compiler :=
    set_program
      (set_code_size (codeptr compiler - code (program compiler))
         (program compiler)) compiler in
  (result compiler, program compiler).

(** Returns the result code and the program as the call leaves it. *)
Definition orc_program_compile_full (program : OrcProgram)
    (target : option OrcTarget) (flags : Z)
  : OrcCompileResult * OrcProgram :=
  let program :=
    match backup_func program with
    | Some f => set_code f program
    | None => set_code orc_executor_emulate program
    end in
  let compiler := zero_compiler program flags in
  if bool_decide (backup_func program ≠ None) && _orc_compiler_flag_backup
  then
    compile_failed
      (set_result ORC_COMPILE_RESULT_UNKNOWN_COMPILE
         (ORC_COMPILER_ERROR "Compilation disabled" compiler))
  else
    match target with
    | None =>
        compile_failed
          (set_result ORC_COMPILE_RESULT_UNKNOWN_COMPILE
             (ORC_COMPILER_ERROR "No target given" compiler))
    | Some target =>
        let compiler := context_before_init program flags in
        let compiler := compiler_init target compiler in
        let compiler := orc_compiler_check_sizes compiler in
        if error compiler then compile_failed compiler else
        let compiler := orc_compiler_assign_rules target compiler in
        if error compiler then compile_failed compiler else
        let compiler := orc_compiler_rewrite_vars compiler in
        if error compiler then compile_failed compiler else
        let compiler := orc_compiler_global_reg_alloc target compiler in
        let compiler := orc_compiler_rewrite_vars2 target compiler in
        if error compiler then compile_failed compiler else
        let compiler := orc_compiler_allocate_codemem compiler in
        if error compiler then compile_failed compiler else
        let compiler := compile target compiler in
        if error compiler then compile_failed compiler else
        compile_succeeded compiler
    end.

Definition orc_program_compile_for_target (program : OrcProgram)
    (target : option OrcTarget) : OrcCompileResult * OrcProgram :=
  let flags :=
    match target with
    | Some target => get_default_flags target
    | None => 0
    end in
  orc_program_compile_full program target flags.

End Driver.

(** ** What the specification says of the allocator *)

(** The register base of the pool a call selects. *)
Definition pool_offset (target : OrcTarget) (data_reg : bool) : Z :=
  if data_reg then data_register_offset target else ORC_GP_REG_BASE.

(** The 32-register window of a pool, in the order of the scan. *)
Definition pool_window (offset : Z) : list Z :=
  map (fun i => offset + Z.of_nat i) (seq 0 32).

(** Preferred pass: valid, not callee-saved, refcount zero. *)
Definition preferred (c : OrcCompiler) (r : Z) : bool :=
  negb (valid_regs c r =? 0) && (save_regs c r =? 0) && (alloc_regs c r =? 0).

(** Fallback pass: the same, ignoring [save]. *)
Definition fallback (c : OrcCompiler) (r : Z) : bool :=
  negb (valid_regs c r =? 0) && (alloc_regs c r =? 0).

Definition pool_name (data_reg : bool) : string :=
  if data_reg then "vector" else "gp".

(** Both passes failed: the diagnostic names the pool, the result is
    [unknown_compile]. *)
Definition register_overflow (data_reg : bool) (c : OrcCompiler)
  : OrcCompiler :=
  set_result ORC_COMPILE_RESULT_UNKNOWN_COMPILE
    (set_diagnostics
       (("register overflow for " +:+ pool_name data_reg +:+ " reg")
        :: diagnostics c)
       (set_error true c)).

(** The allocation policy in the words of the specification. *)
Definition allocate_register_policy (target : OrcTarget) (c : OrcCompiler)
    (data_reg : bool) : OrcCompiler * Z :=
  let window := pool_window (pool_offset target data_reg) in
  match find (preferred c) window with
  | Some r =>
      (set_used_regs (upd (used_regs c) r 1)
         (set_alloc_regs (upd (alloc_regs c) r (alloc_regs c r + 1)) c), r)
  | None =>
      match find (fallback c) window with
      | Some r =>
          (set_used_regs (upd (used_regs c) r 1)
             (set_alloc_regs (upd (alloc_regs c) r (alloc_regs c r + 1)) c),
           r)
      | None => (register_overflow data_reg c, 0)
      end
  end.


(** ** What the specification says of the validator *)








(** ** The rename pass as a sequence of slot visits *)

(** A visit of the pass: src slot [k] or dest slot [k] of instruction
    [j]. *)
Inductive slot : Type :=
  | SrcSlot (j k : nat)
  | DestSlot (j k : nat).

Definition rewrite_vars_slot (s : slot) : OrcCompiler -> OrcCompiler :=
  match s with
  | SrcSlot j k => rewrite_vars_src j k
  | DestSlot j k => rewrite_vars_dest j k
  end.

(** The visits of instruction [j], and of the first [n] instructions, in
    the order of the loops. *)
Definition insn_slots (j : nat) : list slot :=
  map (SrcSlot j) (seq 0 ORC_STATIC_OPCODE_N_SRC) ++
  map (DestSlot j) (seq 0 ORC_STATIC_OPCODE_N_DEST).

Definition pass_slots (n : nat) : list slot := flat_map insn_slots (seq 0 n).

Definition run_slots (l : list slot) (c : OrcCompiler) : OrcCompiler :=
  fold_left (fun c s => rewrite_vars_slot s c) l c.

(** What a visit at instruction [j] does to the cell of a variable that has
    no rename link and, for a dest slot, is no Temp: the usage fields are
    updated. *)
Definition touch (is_src : bool) (j : Z) (x : OrcVariable) : OrcVariable :=
  let x :=
    if is_src && bool_decide (vartype x = ORC_VAR_TYPE_DEST)
    then set_load_dest true x else x in
  let x := if negb (used x) then set_first_use j (set_used true x) else x in
  set_last_use j x.

(** The variable a visit touches: [None] when the slot has declared
    size 0. *)
Definition slot_var (l : list OrcInstruction) (s : slot)
  : option (bool * Z * Z) :=
  match s with
  | SrcSlot j k =>
      if src_size (opcode (l !!! j)) !!! k =? 0 then None
      else Some (true, Z.of_nat j, src_args (l !!! j) !!! k)
  | DestSlot j k =>
      if dest_size (opcode (l !!! j)) !!! k =? 0 then None
      else Some (false, Z.of_nat j, dest_args (l !!! j) !!! k)
  end.

(** No dest slot of non-zero declared size holds a Temp. *)
Definition no_temp_dest (l : list OrcInstruction) (kind : Z -> OrcVarType)
  : Prop :=
  forall j k,
    (k < ORC_STATIC_OPCODE_N_DEST)%nat ->
    dest_size (opcode (l !!! j)) !!! k <> 0 ->
    kind (dest_args (l !!! j) !!! k) <> ORC_VAR_TYPE_TEMP.

(** A visit of a slot the opcode descriptor has. *)
Definition slot_ok (s : slot) : Prop :=
  match s with
  | SrcSlot _ k => (k < ORC_STATIC_OPCODE_N_SRC)%nat
  | DestSlot _ k => (k < ORC_STATIC_OPCODE_N_DEST)%nat
  end.

(** A context with instructions [l] and kinds [kind] in which no variable
    has a rename link. *)
Definition unrenamed (l : list OrcInstruction) (kind : Z -> OrcVarType)
    (c : OrcCompiler) : Prop :=
  insns c = l /\
  forall w, replaced (vars c w) = false /\ vartype (vars c w) = kind w.

(** Cell [z] is cell [x] after some visits: only the usage fields differ,
    and what is set stays set. *)
Definition later_cell (x z : OrcVariable) : Prop :=
  var_name z = var_name x /\ var_size z = var_size x /\
  vartype z = vartype x /\ replaced z = replaced x /\
  replacement z = replacement x /\ alloc z = alloc x /\
  ptr_register z = ptr_register x /\ ptr_offset z = ptr_offset x /\
  mask_alloc z = mask_alloc x /\ aligned_data z = aligned_data x /\
  (used x = true -> used z = true /\ first_use z = first_use x) /\
  (load_dest x = true -> load_dest z = true).

(** During a second run: cell [y] is the cell [z] of the finished first
    run, except that [last_use] is behind: it is that of the first run
    at the same point, [x], once the variable has been visited. *)
Definition second_run_cell (z x y : OrcVariable) : Prop :=
  y = set_last_use (if used x then last_use x else last_use z) z.

(** ** Sample targets, opcodes and programs *)

(** A target whose vector pool starts at [offset].  Its [compiler_init]
    declares eight general-purpose and eight vector registers valid; the
    other hooks do nothing, and there is a rule for every opcode. *)
Definition sample_target (offset : Z) : OrcTarget := {|
  target_name := "sample";
  data_register_offset := offset;
  compiler_init := fun c =>
    set_valid_regs (fun r =>
      if (ORC_GP_REG_BASE <=? r) && (r <? ORC_GP_REG_BASE + 8) ||
         (offset <=? r) && (r <? offset + 8)
      then 1 else 0) c;
  compile := fun c => c;
  load_constant := fun c _ _ _ => c;
  get_default_flags := 0;
  orc_target_get_rule := fun _ _ => Some {| emit := Some 1; emit_user := 0 |}
|}.

Definition copyw : OrcStaticOpcode :=
  {| opcode_name := "copyw"; dest_size := [2; 0]; src_size := [2; 0; 0; 0];
     flags := 0 |}.

Definition addw : OrcStaticOpcode :=
  {| opcode_name := "addw"; dest_size := [2; 0]; src_size := [2; 2; 0; 0];
     flags := 0 |}.

(** A two-source opcode with the Scalar flag. *)
Definition shlw : OrcStaticOpcode :=
  {| opcode_name := "shlw"; dest_size := [2; 0]; src_size := [2; 2; 0; 0];
     flags := ORC_STATIC_OPCODE_SCALAR |}.

Definition insn1 (op : OrcStaticOpcode) (d s1 : Z) : OrcInstruction :=
  {| opcode := op; dest_args := [d; 0]; src_args := [s1; 0; 0; 0];
     rule := None |}.

Definition insn2 (op : OrcStaticOpcode) (d s1 s2 : Z) : OrcInstruction :=
  {| opcode := op; dest_args := [d; 0]; src_args := [s1; s2; 0; 0];
     rule := None |}.

(** A declared variable of a program. *)
Definition declared (name : string) (size : Z) (kind : OrcVarType)
  : OrcVariable :=
  set_vartype kind (set_var_size size (set_var_name (Some name) zero_variable)).

Definition sample_program (insns : list OrcInstruction)
    (vars : Z -> OrcVariable) (n_temp_vars : Z) : OrcProgram := {|
  prog_name := "sample"; prog_insns := insns; prog_vars := vars;
  prog_n_temp_vars := n_temp_vars; backup_func := None; code := 0;
  prog_asm_code := None; code_size := 0 |}.

Definition no_vars : Z -> OrcVariable := fun _ => zero_variable.

(** The program of scenario 2: [copyw T1, S1; addw T1, T1, S1;
    copyw D1, T1], with one declared temporary. *)
Definition temp_reuse_vars : Z -> OrcVariable :=
  upd (upd (upd no_vars ORC_VAR_D1 (declared "d1" 2 ORC_VAR_TYPE_DEST))
         ORC_VAR_S1 (declared "s1" 2 ORC_VAR_TYPE_SRC))
    ORC_VAR_T1 (declared "t1" 2 ORC_VAR_TYPE_TEMP).

Definition temp_reuse_program : OrcProgram :=
  sample_program
    [insn1 copyw ORC_VAR_T1 ORC_VAR_S1;
     insn2 addw ORC_VAR_T1 ORC_VAR_T1 ORC_VAR_S1;
     insn1 copyw ORC_VAR_D1 ORC_VAR_T1]
    temp_reuse_vars 1.


(** An index that lies inside the array [vars] of [ORC_N_VARIABLES]
    cells. *)
Definition valid_var_index (i : Z) : Prop := 0 <= i < ORC_N_VARIABLES.



(** The low byte of [v] replicated into the four bytes of an [int], in
    the words of the specification. *)
Definition splat8 (v : Z) : Z :=
  let b := Z.land v 0xff in
  int32 (Z.lor (Z.lor (Z.lor b (Z.shiftl b 8)) (Z.shiftl b 16))
           (Z.shiftl b 24)).



(** Scenario 3 made valid: [shlw D1, S1, C1], a Scalar-flagged opcode whose
    second source is a constant.  Its unused slots 2 and 3 hold 0, the
    index of D1. *)
Definition scalar_vars : Z -> OrcVariable :=
  upd (upd (upd no_vars ORC_VAR_D1 (declared "d1" 2 ORC_VAR_TYPE_DEST))
         ORC_VAR_S1 (declared "s1" 2 ORC_VAR_TYPE_SRC))
    ORC_VAR_C1 (declared "c1" 2 ORC_VAR_TYPE_CONST).

Definition scalar_program : OrcProgram :=
  sample_program [insn2 shlw ORC_VAR_D1 ORC_VAR_S1 ORC_VAR_C1] scalar_vars 0.

(** Scenario 3: the second source of the Scalar-flagged opcode is a Src. *)
Definition scalar_src_program : OrcProgram :=
  sample_program
    [insn1 copyw ORC_VAR_D1 ORC_VAR_S1;
     insn2 shlw ORC_VAR_D1 ORC_VAR_S1 ORC_VAR_S1] scalar_vars 0.

(** ** Live ranges and the refcounts of the local pass *)

(** [compiler->vars[i].name != NULL]. *)
Definition named (v : OrcVariable) : bool :=
  match var_name v with Some _ => true | None => false end.


Definition forall_below (n : nat) (p : Z -> bool) : bool :=
  forallb (fun i => p (Z.of_nat i)) (seq 0 n).

(** A variable the loops over the table of the local pass visit: inside
    the table and named. *)
Definition tracked (c : OrcCompiler) (i : Z) : bool :=
  (0 <=? i) && (i <? ORC_N_VARIABLES) && named (vars c i).

(** The live range of a named variable is either absent (both ends
    negative, as the global pass leaves Const, Param and Accumulator) or
    an interval of instruction indices. *)
Definition live_range_ok (c : OrcCompiler) (i : Z) : bool :=
  let v := vars c i in
  negb (named v) ||
  ((first_use v <? 0) && (last_use v <? 0)) ||
  ((0 <=? first_use v) && (first_use v <=? last_use v) &&
   (last_use v <? Z.of_nat (n_insns c))).

(** A named variable with a live range has no register before the pass. *)
Definition unborn_ok (c : OrcCompiler) (i : Z) : bool :=
  let v := vars c i in
  negb (named v) || (first_use v <? 0) || (alloc v =? 0).

(** The test of the local pass for chaining src1 to dest. *)
Definition chain_candidate (insn : OrcInstruction) : bool :=
  (Z.land (flags (opcode insn)) ORC_STATIC_OPCODE_ACCUMULATOR =? 0) &&
  (dest_size (opcode insn) !!! 1%nat =? 0).

(** Where chaining fires at instruction [j], src1 and dest are two
    different tracked variables and dest is first used at [j]. *)
Definition chain_ok (c : OrcCompiler) (j : nat) : bool :=
  let insn := insns c !!! j in
  let src1 := src_args insn !!! 0%nat in
  let dest := dest_args insn !!! 0%nat in
  negb (chain_candidate insn) ||
  negb (last_use (vars c src1) =? Z.of_nat j) ||
  (tracked c src1 && tracked c dest && negb (src1 =? dest) &&
   (first_use (vars c dest) =? Z.of_nat j)).

(** The contexts on which the local pass balances its refcounts. *)
Definition local_pass_ready (target : OrcTarget) (c : OrcCompiler) : bool :=
  (ORC_GP_REG_BASE <=? data_register_offset target) &&
  forall_below (Z.to_nat ORC_N_VARIABLES) (live_range_ok c) &&
  forall_below (Z.to_nat ORC_N_VARIABLES) (unborn_ok c) &&
  forallb (chain_ok c) (seq 0 (n_insns c)).






(** The smallest valid program, scenario 1: [copyw D1, S1]. *)
Definition copyw_vars : Z -> OrcVariable :=
  upd (upd no_vars ORC_VAR_D1 (declared "d1" 2 ORC_VAR_TYPE_DEST))
    ORC_VAR_S1 (declared "s1" 2 ORC_VAR_TYPE_SRC).

Definition copyw_program : OrcProgram :=
  sample_program [insn1 copyw ORC_VAR_D1 ORC_VAR_S1] copyw_vars 0.

(** The context of a program after the passes of the driver that precede
    the local pass. *)
Definition before_local_pass (target : OrcTarget) (program : OrcProgram)
  : OrcCompiler :=
  orc_compiler_global_reg_alloc target
    (orc_compiler_rewrite_vars
       (orc_compiler_assign_rules target
          (orc_compiler_check_sizes
             (compiler_init target (context_before_init program 0))))).

(** A destination written twice: [copyw D1, S1; copyw D1, S2]. *)
Definition dest_twice_vars : Z -> OrcVariable :=
  upd copyw_vars (ORC_VAR_S1 + 1) (declared "s2" 2 ORC_VAR_TYPE_SRC).

Definition dest_twice_program : OrcProgram :=
  sample_program
    [insn1 copyw ORC_VAR_D1 ORC_VAR_S1;
     insn1 copyw ORC_VAR_D1 (ORC_VAR_S1 + 1)] dest_twice_vars 0.

(** * Properties *)

(** ** Tables and loops *)

(** Projections of updated records. *)
Ltac simpl_fields :=
  cbn [program target_flags insns vars n_temp_vars n_dup_vars error result
       valid_regs save_regs used_regs alloc_regs need_mask_regs
       alloc_loop_counter loop_counter tmpreg constants asm_code codeptr
       n_labels diagnostics
       set_program set_insns set_vars set_n_dup_vars set_error set_result
       set_valid_regs set_used_regs set_alloc_regs set_loop_counter
       set_constants set_asm_code set_n_labels set_diagnostics
       set_save_regs set_need_mask_regs set_alloc_loop_counter set_tmpreg
       set_codeptr
       var_name var_size vartype used first_use last_use replaced replacement
       alloc load_dest ptr_register ptr_offset mask_alloc aligned_data
       set_var_name set_var_size set_vartype set_used set_first_use
       set_last_use set_replaced set_replacement set_alloc set_load_dest
       set_ptr_register set_ptr_offset set_mask_alloc set_aligned_data
       opcode dest_args src_args rule set_dest_args set_src_args set_rule
       with_var with_insn ORC_COMPILER_ERROR take_register fst snd] in *.

Lemma upd_eq {A} (a : Z -> A) i x : upd a i x i = x.
Proof. unfold upd. by rewrite Z.eqb_refl. Qed.

Lemma upd_ne {A} (a : Z -> A) i x k : k ≠ i -> upd a i x k = a k.
Proof. unfold upd. intros H. by destruct (Z.eqb_spec k i). Qed.

(** A loop that only searches returns at the first hit. *)
Lemma for_from_find {R : Type} (p : nat -> bool) (f : nat -> R) start count :
  for_from start count (fun i (_ : unit) =>
    if p i then Return (f i) else Next ()) () =
  match find p (seq start count) with
  | Some i => Return (f i)
  | None => Next ()
  end.
Proof.
  revert start. induction count as [|n IH]; intros start; simpl; [done|].
  destruct (p start); [done|]. apply IH.
Qed.

Lemma find_map {A B} (g : A -> B) (q : B -> bool) (l : list A) :
  find q (map g l) = g <$> find (fun a => q (g a)) l.
Proof.
  induction l as [|a l IH]; simpl; [done|]. by destruct (q (g a)).
Qed.

Lemma find_ext_seq (p q : nat -> bool) start count :
  (forall i, (start <= i < start + count)%nat -> p i = q i) ->
  find p (seq start count) = find q (seq start count).
Proof.
  revert start. induction count as [|n IH]; intros start H; simpl; [done|].
  rewrite (H start) by lia. destruct (q start); [done|].
  apply IH. intros i Hi. apply H. lia.
Qed.

Lemma land_window (i : nat) : (i < 32)%nat -> Z.land (0 + Z.of_nat i) 0x1f = Z.of_nat i.
Proof.
  intros H. change 0x1f with (Z.ones 5). rewrite Z.land_ones by lia.
  rewrite Z.add_0_l. apply Z.mod_small. change (2 ^ 5) with 32. lia.
Qed.

(** ** The allocator *)

Lemma allocate_register_policy_eq (target : OrcTarget) (c : OrcCompiler)
    (data_reg : bool) :
  orc_compiler_allocate_register target c data_reg =
  allocate_register_policy target c data_reg.
Proof.
  unfold orc_compiler_allocate_register, allocate_register_policy,
    pool_window, pool_offset.
  set (offset := if data_reg then _ else _).
  rewrite !find_map.
  rewrite (for_from_find
    (fun i => preferred c (offset + Z.land (0 + Z.of_nat i) 31))
    (fun i => (take_register (offset + Z.land (0 + Z.of_nat i) 31) c,
               offset + Z.land (0 + Z.of_nat i) 31))).
  rewrite (for_from_find
    (fun i => fallback c (offset + Z.land (0 + Z.of_nat i) 31))
    (fun i => (take_register (offset + Z.land (0 + Z.of_nat i) 31) c,
               offset + Z.land (0 + Z.of_nat i) 31))).
  rewrite (find_ext_seq
             (fun i => preferred c (offset + Z.land (0 + Z.of_nat i) 31))
             (fun i => preferred c (offset + Z.of_nat i)))
    by (intros i Hi; rewrite land_window by lia; done).
  rewrite (find_ext_seq
             (fun i => fallback c (offset + Z.land (0 + Z.of_nat i) 31))
             (fun i => fallback c (offset + Z.of_nat i)))
    by (intros i Hi; rewrite land_window by lia; done).
  destruct (find (fun i => preferred _ _) (seq 0 32)) as [i|] eqn:Hfind.
  { apply find_some in Hfind as [Hin _]. apply in_seq in Hin.
    cbn [fmap option_fmap option_map]. rewrite land_window by lia. done. }
  destruct (find (fun i => fallback _ _) (seq 0 32)) as [i|] eqn:Hfind2.
  { apply find_some in Hfind2 as [Hin _]. apply in_seq in Hin.
    cbn [fmap option_fmap option_map]. rewrite land_window by lia. done. }
  cbn [fmap option_fmap option_map].
  unfold register_overflow, ORC_COMPILER_ERROR, pool_name. done.
Qed.

Lemma take_register_eq (r : Z) (c : OrcCompiler) :
  take_register r c =
  set_used_regs (upd (used_regs c) r 1)
    (set_alloc_regs (upd (alloc_regs c) r (alloc_regs c r + 1)) c).
Proof. done. Qed.

Lemma preferred_fallback c r : preferred c r = true -> fallback c r = true.
Proof.
  unfold preferred, fallback. intros H.
  apply andb_prop in H as [H ?]. apply andb_prop in H as [? ?].
  by apply andb_true_intro.
Qed.

Lemma in_pool_window offset r :
  In r (pool_window offset) <-> offset <= r < offset + 32.
Proof.
  unfold pool_window. rewrite in_map_iff. split.
  - intros (i & <- & Hi). apply in_seq in Hi. lia.
  - intros H. exists (Z.to_nat (r - offset)). split; [lia|].
    apply in_seq. lia.
Qed.

(** The two outcomes of a call: a register of the window that was valid
    and free is taken, or no register of the window is valid and free and
    the overflow is recorded. *)
Lemma allocate_register_cases (target : OrcTarget) (c : OrcCompiler)
    (data_reg : bool) :
  (exists r,
     pool_offset target data_reg <= r < pool_offset target data_reg + 32 /\
     fallback c r = true /\
     orc_compiler_allocate_register target c data_reg =
       (take_register r c, r)) \/
  ((forall r,
      pool_offset target data_reg <= r < pool_offset target data_reg + 32 ->
      fallback c r = false) /\
   orc_compiler_allocate_register target c data_reg =
     (register_overflow data_reg c, 0)).
Proof.
  rewrite allocate_register_policy_eq. unfold allocate_register_policy.
  destruct (find (preferred c) _) as [r|] eqn:H1.
  { left. exists r. apply find_some in H1 as [Hin Hp].
    apply in_pool_window in Hin. auto using preferred_fallback. }
  destruct (find (fallback c) _) as [r|] eqn:H2.
  { left. exists r. apply find_some in H2 as [Hin Hp].
    apply in_pool_window in Hin. auto. }
  right. split; [|done]. intros r Hr.
  apply in_pool_window in Hr.
  destruct (fallback c r) eqn:Hf; [|done].
  by pose proof (find_none _ _ H2 r Hr) as Hn; rewrite Hf in Hn.
Qed.

(** ** C3: the two scans of the allocator *)

(** C3.  For every target, compiler state and pool selector the allocator
    is the policy of the specification: the first register of the
    32-register window that is valid, not callee-saved and has refcount
    zero, else the first that is valid and has refcount zero; on a hit the
    refcount is incremented, [used] is set to 1 and the register is
    returned; when both scans fail a "register overflow" diagnostic naming
    the pool is recorded, the result is [unknown_compile] and 0 is
    returned. *)
Theorem allocate_register_two_scans (target : OrcTarget) (c : OrcCompiler)
    (data_reg : bool) :
  orc_compiler_allocate_register target c data_reg =
  allocate_register_policy target c data_reg.
Proof. apply allocate_register_policy_eq. Qed.

(** ** C10: the registers the allocator returns and the sentinel 1 *)

(** C10, as stated, fails: with a vector pool that starts at register 1,
    on the context as the driver sets it up, a call for a vector register
    succeeds (no error is recorded, the refcount is taken) and returns 1,
    which is below [ORC_GP_REG_BASE] and is the sentinel: the clearing
    step of the local pass then resets the [alloc] of the variable that
    holds it. *)
Lemma allocate_register_returns_sentinel :
  let target := sample_target 1 in
  let c :=
    compiler_init target
      (context_before_init (sample_program [insn2 addw 0 4 5] no_vars 0) 0) in
  let '(c', r) := orc_compiler_allocate_register target c true in
  r = 1 /\ ~ ORC_GP_REG_BASE <= r /\
  error c' = false /\ result c' = ORC_COMPILE_RESULT_OK /\
  alloc_regs c' r = 1 /\
  alloc (vars (rewrite_vars2_immediate 0 (with_var 5 (set_alloc r) c')) 5) = 0.
Proof. vm_compute. repeat split; congruence. Qed.

(** C10, amended.  When the vector pool of the target starts at or above
    [ORC_GP_REG_BASE], a call either fails, returning 0 with the error
    latched and the result [unknown_compile], or succeeds, returning a
    register at or above [ORC_GP_REG_BASE] whose refcount it incremented;
    so the value returned is never the sentinel 1, and the clearing step
    of the local pass leaves a variable that holds a returned register
    as it is. *)
Theorem allocate_register_above_gp_base (target : OrcTarget)
    (c c' : OrcCompiler) (data_reg : bool) (r : Z) :
  ORC_GP_REG_BASE <= data_register_offset target ->
  orc_compiler_allocate_register target c data_reg = (c', r) ->
  ((r = 0 /\ error c' = true /\
    result c' = ORC_COMPILE_RESULT_UNKNOWN_COMPILE /\
    alloc_regs c' = alloc_regs c) \/
   (ORC_GP_REG_BASE <= r /\ error c' = error c /\ result c' = result c /\
    alloc_regs c' r = alloc_regs c r + 1)) /\
  r <> 1 /\
  forall (c2 : OrcCompiler) (v : Z) (j : nat),
    alloc (vars c2 v) = r ->
    alloc (vars (rewrite_vars2_immediate j c2) v) = r.
Proof.
  intros Hoff Hcall.
  assert (Hr : (r = 0 /\ error c' = true /\
    result c' = ORC_COMPILE_RESULT_UNKNOWN_COMPILE /\
    alloc_regs c' = alloc_regs c) \/
   (ORC_GP_REG_BASE <= r /\ error c' = error c /\ result c' = result c /\
    alloc_regs c' r = alloc_regs c r + 1)).
  { destruct (allocate_register_cases target c data_reg)
      as [(r' & Hwin & _ & Heq)|[_ Heq]];
      rewrite Heq in Hcall; injection Hcall as <- <-.
    - right. repeat split; try done.
      + unfold pool_offset in Hwin. destruct data_reg; lia.
      + cbn. by rewrite upd_eq.
    - left. done. }
  assert (Hne : r <> 1).
  { unfold ORC_GP_REG_BASE in Hr. lia. }
  repeat split; try done.
  intros c2 v j Hv. unfold rewrite_vars2_immediate.
  destruct (alloc (vars c2 _) =? 1) eqn:Hs; [|done].
  apply Z.eqb_eq in Hs. cbn. unfold upd.
  destruct (Z.eqb_spec v (src_args (insns c2 !!! j) !!! 1%nat)) as [->|]; [|done].
  congruence.
Qed.

Lemma allocate_register_above_gp_base_witness :
  let target := sample_target ORC_VEC_REG_BASE in
  let c :=
    compiler_init target
      (context_before_init (sample_program [] no_vars 0) 0) in
  let cr := orc_compiler_allocate_register target c true in
  snd cr = 64 /\ snd cr <> 1.
Proof.
  intros target c cr. split; [reflexivity|].
  refine (proj1 (proj2
    (allocate_register_above_gp_base target c (fst cr) true (snd cr) _ _))).
  - vm_compute. discriminate.
  - apply surjective_pairing.
Defined.

(** ** Loops *)

Lemma for_loop_0 {St} (body : nat -> St -> St) s : for_loop 0 body s = s.
Proof. done. Qed.

Lemma for_loop_S {St} n (body : nat -> St -> St) s :
  for_loop (S n) body s = body n (for_loop n body s).
Proof. unfold for_loop. by rewrite seq_S, fold_left_app. Qed.


(** ** C5: the registers the driver marks valid *)

Lemma mark_valid_regs_upto (n : nat) (c : OrcCompiler) (r : Z) :
  valid_regs
    (for_loop n (fun i compiler =>
       set_valid_regs (upd (valid_regs compiler) (Z.of_nat i) 1) compiler) c) r =
  if (0 <=? r) && (r <? Z.of_nat n) then 1 else valid_regs c r.
Proof.
  induction n as [|n IH].
  - rewrite for_loop_0.
    destruct (Z.leb_spec 0 r), (Z.ltb_spec r (Z.of_nat 0)); simpl; try done; lia.
  - rewrite for_loop_S. cbn [valid_regs set_valid_regs].
    destruct (Z.eq_dec r (Z.of_nat n)) as [->|Hne].
    + rewrite upd_eq.
      destruct (Z.leb_spec 0 (Z.of_nat n)),
        (Z.ltb_spec (Z.of_nat n) (Z.of_nat (S n))); simpl; try done; lia.
    + rewrite upd_ne, IH by done.
      destruct (Z.leb_spec 0 r), (Z.ltb_spec r (Z.of_nat n)),
        (Z.ltb_spec r (Z.of_nat (S n))); simpl; try done; lia.
Qed.

(** C5.  On the context the driver hands to [compiler_init], the registers
    marked valid are exactly 0..31: the loop of the driver stops at 32, so
    no register of the general-purpose pool ([ORC_GP_REG_BASE] = 32
    onwards) and no register of a vector pool at [ORC_VEC_REG_BASE] is
    valid by default. *)
Theorem driver_marks_registers_below_32 (program : OrcProgram) (flags r : Z) :
  valid_regs (context_before_init program flags) r =
    (if (0 <=? r) && (r <? 32) then 1 else 0) /\
  valid_regs (context_before_init program flags) ORC_GP_REG_BASE = 0 /\
  valid_regs (context_before_init program flags) ORC_VEC_REG_BASE = 0.
Proof.
  unfold context_before_init, mark_valid_regs.
  rewrite !mark_valid_regs_upto. done.
Qed.

(** ** C9: the slot of a duplicate and the capacity of the table *)

Lemma dup_temporary_slot (c : OrcCompiler) (var j : Z) :
  snd (orc_compiler_dup_temporary c var j) =
  ORC_VAR_T1 + n_temp_vars c + n_dup_vars c.
Proof. done. Qed.

(** The slot of a duplicate is never inside the array of
    [ORC_N_VARIABLES] cells. *)
Lemma dup_temporary_slot_outside (c : OrcCompiler) (var j : Z) :
  0 <= n_temp_vars c -> 0 <= n_dup_vars c ->
  ~ valid_var_index (snd (orc_compiler_dup_temporary c var j)).
Proof.
  intros Ht Hd. rewrite dup_temporary_slot.
  unfold valid_var_index, ORC_VAR_T1, ORC_N_VARIABLES. lia.
Qed.


(** ** C1: a second definition of a temporary *)

(** Scenario 2 of the specification, run through the pass: the second
    definition of T1 goes to the duplicate in slot 29, the later read is
    rewritten, and the live ranges are those of the code. *)
Example rewrite_vars_temp_reuse :
  let c := orc_compiler_rewrite_vars
             (context_before_init temp_reuse_program 0) in
  (dest_args <$> insns c) = [[28; 0]; [29; 0]; [0; 0]] /\
  (src_args <$> insns c) = [[4; 0; 0; 0]; [28; 4; 0; 0]; [29; 0; 0; 0]] /\
  n_dup_vars c = 1 /\
  (first_use (vars c 28), last_use (vars c 28)) = (0, 1) /\
  (first_use (vars c 29), last_use (vars c 29)) = (1, 2) /\
  (replaced (vars c 28), replacement (vars c 28)) = (true, 29) /\
  error c = false.
Proof. vm_compute. done. Qed.

(** C1.  At a dest slot [k] of instruction [j] with non-zero declared
    size whose variable is a Temp already marked used, the pass creates a
    duplicate at slot [ORC_VAR_T1 + n_temp_vars + n_dup_vars], of kind
    Temp, with the size of the original and the name of the original
    followed by ".dup" and [j]; [n_dup_vars] goes up by one; the original
    gets [replaced] and [replacement] set to the new slot; the dest slot
    of the instruction is rewritten to the new slot; the new variable is
    marked used with [first_use] and [last_use] equal to [j]. *)
Theorem rewrite_vars_dest_duplicates_temp (c : OrcCompiler) (j k : nat)
    (s : string) :
  let insn := insns c !!! j in
  let var := dest_args insn !!! k in
  let i := ORC_VAR_T1 + n_temp_vars c + n_dup_vars c in
  let c' := rewrite_vars_dest j k c in
  (j < n_insns c)%nat ->
  (k < length (dest_args insn))%nat ->
  dest_size (opcode insn) !!! k <> 0 ->
  vartype (vars c var) = ORC_VAR_TYPE_TEMP ->
  used (vars c var) = true ->
  var_name (vars c var) = Some s ->
  n_dup_vars c' = n_dup_vars c + 1 /\
  vartype (vars c' i) = ORC_VAR_TYPE_TEMP /\
  var_size (vars c' i) = var_size (vars c var) /\
  var_name (vars c' i) = Some (s +:+ ".dup" +:+ pretty (Z.of_nat j)) /\
  replaced (vars c' var) = true /\
  replacement (vars c' var) = i /\
  dest_args (insns c' !!! j) !!! k = i /\
  used (vars c' i) = true /\
  first_use (vars c' i) = Z.of_nat j /\
  last_use (vars c' i) = Z.of_nat j.
Proof.
  intros insn var i c' Hj Hk Hsize Htemp Hused Hname.
  subst c'. unfold rewrite_vars_dest.
  fold insn. fold var.
  apply Z.eqb_neq in Hsize. rewrite Hsize.
  set (c1 := dest_check _ _ (dest_check _ _ (dest_check _ _ c))).
  set (c2 := if negb _ then _ else _).
  assert (Hc2 : vars c2 = vars c /\ insns c2 = insns c /\
                n_temp_vars c2 = n_temp_vars c /\ n_dup_vars c2 = n_dup_vars c).
  { subst c2 c1. unfold dest_check.
    repeat match goal with |- context [if ?b then _ else _] => destruct b end;
      done. }
  destruct Hc2 as (Hv2 & Hi2 & Ht2 & Hd2).
  set (p3 := if replaced (vars c2 var) then _ else _).
  assert (Hp3 : exists a c3, p3 = (a, c3) /\ vars c3 = vars c /\
            n_temp_vars c3 = n_temp_vars c /\ n_dup_vars c3 = n_dup_vars c /\
            (j < length (insns c3))%nat /\
            (k < length (dest_args (insns c3 !!! j)))%nat).
  { subst p3. destruct (replaced (vars c2 var)).
    - eexists _, _. split; [done|]. simpl_fields.
      rewrite length_insert, Hi2. split_and!; try done.
      rewrite list_lookup_total_insert_eq by done. simpl_fields.
      by rewrite length_insert.
    - exists var, c2. rewrite Hi2. done. }
  destruct Hp3 as (a & c3 & -> & Hv3 & Ht3 & Hd3 & Hj3 & Hk3).
  rewrite Hv3, Hused, Htemp. cbn [negb]. rewrite bool_decide_eq_true_2 by done.
  unfold orc_compiler_dup_temporary. rewrite Ht3, Hd3. fold i.
  simpl_fields. rewrite Hv3.
  rewrite list_lookup_total_insert_eq by done. simpl_fields.
  rewrite list_lookup_total_insert_eq by done.
  unfold upd. rewrite !Z.eqb_refl, Hd3. simpl_fields.
  destruct (Z.eq_dec i var) as [Heq|Hne].
  - rewrite !Heq, !Z.eqb_refl. simpl_fields. rewrite Hname. done.
  - assert (H1 : (i =? var) = false) by by apply Z.eqb_neq.
    assert (H2 : (var =? i) = false) by (apply Z.eqb_neq; congruence).
    rewrite ?H1, ?H2. simpl_fields. rewrite ?H1, ?H2, ?Hname. done.
Qed.

Lemma rewrite_vars_dest_duplicates_temp_witness :
  let c := for_loop ORC_STATIC_OPCODE_N_SRC (rewrite_vars_src 1)
             (rewrite_vars_insn 0 (context_before_init temp_reuse_program 0)) in
  let c' := rewrite_vars_dest 1 0 c in
  n_dup_vars c' = 1 /\
  vartype (vars c' 29) = ORC_VAR_TYPE_TEMP /\
  var_size (vars c' 29) = 2 /\
  var_name (vars c' 29) = Some "t1.dup1" /\
  replaced (vars c' 28) = true /\
  replacement (vars c' 28) = 29 /\
  dest_args (insns c' !!! 1%nat) !!! 0%nat = 29 /\
  used (vars c' 29) = true /\
  first_use (vars c' 29) = 1 /\
  last_use (vars c' 29) = 1.
Proof.
  intros c c'.
  apply (rewrite_vars_dest_duplicates_temp c 1 0 "t1");
    vm_compute; (reflexivity || lia || discriminate).
Defined.

(** ** C6: the loop counter *)








(** ** C8: constants of size 1 and their splat *)

Example canonical_constant_samples :
  canonical_constant 1 0x7f = 0x7f7f7f7f /\
  canonical_constant 1 0x80 = -2139062144 /\
  canonical_constant 1 (-1) = -1 /\
  canonical_constant 2 0x1234 = 0x12341234 /\
  canonical_constant 4 0x1234 = 0x1234 /\
  splat8 0x80 = -2139062144.
Proof. vm_compute. done. Qed.






(** ** C2: the validator *)






(** Scenario 3: a Src as second source of a Scalar-flagged opcode. *)
Example check_sizes_scalar_src :
  let c := orc_compiler_check_sizes
             (context_before_init scalar_src_program 0) in
  error c = true /\ result c = ORC_COMPILE_RESULT_UNKNOWN_PARSE /\
  diagnostics c = ["opcode shlw requires const or param source"].
Proof. vm_compute. done. Qed.



(** ** C7: a second run of the rename pass *)

(** C7, as stated, fails: on the output of the pass for scenario 2, a
    second run finds every Temp already used, so each of its definitions
    gets one more duplicate: three duplicates instead of one, the dest
    slots of instructions 0 and 1 and the src slots that read a Temp are
    rewritten again, and the rename links change. *)
Lemma rewrite_vars_twice_duplicates_again :
  let c1 := orc_compiler_rewrite_vars
              (context_before_init temp_reuse_program 0) in
  let c2 := orc_compiler_rewrite_vars c1 in
  n_dup_vars c1 = 1 /\ n_dup_vars c2 = 3 /\
  (dest_args <$> insns c1) = [[28; 0]; [29; 0]; [0; 0]] /\
  (dest_args <$> insns c2) = [[30; 0]; [31; 0]; [0; 0]] /\
  (src_args <$> insns c1) = [[4; 0; 0; 0]; [28; 4; 0; 0]; [29; 0; 0; 0]] /\
  (src_args <$> insns c2) = [[4; 0; 0; 0]; [30; 4; 0; 0]; [31; 0; 0; 0]] /\
  var_name (vars c2 30) = Some "t1.dup0" /\
  var_name (vars c2 31) = Some "t1.dup1.dup1" /\
  replacement (vars c1 28) = 29 /\ replacement (vars c2 28) = 30 /\
  replaced (vars c1 29) = false /\ replaced (vars c2 29) = true.
Proof. vm_compute. done. Qed.

(** The pass is the sequence of its visits. *)
Lemma run_slots_app l1 l2 c :
  run_slots (l1 ++ l2) c = run_slots l2 (run_slots l1 c).
Proof. apply fold_left_app. Qed.

Lemma for_loop_map_slots (mk : nat -> slot) n c :
  for_loop n (fun k => rewrite_vars_slot (mk k)) c =
  run_slots (map mk (seq 0 n)) c.
Proof.
  unfold for_loop, run_slots. generalize (seq 0 n). intros l. revert c.
  induction l as [|k l IH]; intros c; simpl; [done|]. apply IH.
Qed.

Lemma rewrite_vars_insn_slots j c :
  rewrite_vars_insn j c = run_slots (insn_slots j) c.
Proof.
  unfold rewrite_vars_insn, insn_slots. rewrite run_slots_app.
  rewrite <- (for_loop_map_slots (SrcSlot j)).
  rewrite <- (for_loop_map_slots (DestSlot j)). done.
Qed.

Lemma flat_map_cons_app {A B} (f : A -> list B) (a : A) (l : list A) :
  flat_map f (a :: l) = f a ++ flat_map f l.
Proof. done. Qed.

Lemma fold_left_cons_step {A B} (f : A -> B -> A) (b : B) (l : list B) (a : A) :
  fold_left f (b :: l) a = fold_left f l (f a b).
Proof. done. Qed.

Lemma rewrite_vars_pass_slots n c :
  for_loop n rewrite_vars_insn c = run_slots (pass_slots n) c.
Proof.
  unfold for_loop, pass_slots. generalize (seq 0 n). intros l. revert c.
  induction l as [|j l IH]; intros c; [done|].
  rewrite flat_map_cons_app, run_slots_app, fold_left_cons_step.
  rewrite <- (rewrite_vars_insn_slots j c). apply IH.
Qed.

(** Cells. *)
Lemma later_cell_refl x : later_cell x x.
Proof. by repeat split. Qed.

Lemma later_cell_trans x y z :
  later_cell x y -> later_cell y z -> later_cell x z.
Proof.
  unfold later_cell.
  intros (? & ? & ? & ? & ? & ? & ? & ? & ? & ? & Hu1 & Hd1)
         (? & ? & ? & ? & ? & ? & ? & ? & ? & ? & Hu2 & Hd2).
  split_and!; try congruence.
  - intros Hu. destruct (Hu1 Hu) as [Hy1 Hy2].
    destruct (Hu2 Hy1) as [Hz1 Hz2]. split; congruence.
  - auto.
Qed.

Lemma later_cell_touch is_src j x : later_cell x (touch is_src j x).
Proof.
  unfold touch.
  destruct (is_src && _); simpl_fields;
    destruct (used x) eqn:Hu; unfold later_cell; simpl_fields;
    split_and!; try done; congruence.
Qed.

Lemma used_touch is_src j x : used (touch is_src j x) = true.
Proof.
  unfold touch.
  destruct (is_src && _); simpl_fields; by destruct (used x) eqn:Hu.
Qed.

Lemma last_use_touch is_src j x : last_use (touch is_src j x) = j.
Proof. done. Qed.

Lemma second_run_cell_start x y : second_run_cell x x y -> y = x.
Proof.
  unfold second_run_cell. intros ->. destruct x; simpl.
  by destruct used0.
Qed.

(** A visit in the second run keeps the cell in step with the first
    run. *)
Lemma second_run_cell_touch is_src j z x y :
  later_cell (touch is_src j x) z ->
  second_run_cell z x y ->
  second_run_cell z (touch is_src j x) (touch is_src j y).
Proof.
  unfold second_run_cell. intros Hl ->.
  rewrite used_touch, last_use_touch.
  pose proof (later_cell_touch is_src j x) as Hx.
  destruct Hl as (_ & _ & Hk & _ & _ & _ & _ & _ & _ & _ & Hu & Hd).
  destruct (Hu (used_touch _ _ _)) as [Hzu _].
  destruct Hx as (_ & _ & Hkx & _). rewrite Hkx in Hk.
  unfold touch in *. simpl_fields.
  destruct (is_src && bool_decide (vartype x = ORC_VAR_TYPE_DEST)) eqn:Hb;
    rewrite Hk, Hb; simpl_fields; rewrite Hzu; simpl_fields.
  - destruct z; simpl_fields. rewrite Hd; [done|].
    by destruct (used x).
  - by destruct z.
Qed.

(** A visit on a context without rename links and without Temp
    destinations only touches the cell of the variable in the slot. *)
Lemma rewrite_vars_slot_unrenamed l kind s a :
  slot_ok s ->
  unrenamed l kind a ->
  no_temp_dest l kind ->
  insns (rewrite_vars_slot s a) = insns a /\
  n_dup_vars (rewrite_vars_slot s a) = n_dup_vars a /\
  n_temp_vars (rewrite_vars_slot s a) = n_temp_vars a /\
  forall w,
    vars (rewrite_vars_slot s a) w =
    match slot_var l s with
    | Some (is_src, j, v) => upd (vars a) v (touch is_src j (vars a v)) w
    | None => vars a w
    end.
Proof.
  intros Hok [Hi Hw] Hnt. destruct s as [j k|j k].
  - unfold rewrite_vars_slot, rewrite_vars_src, slot_var. rewrite Hi.
    destruct (_ =? 0); [done|].
    set (v := src_args (l !!! j) !!! k).
    destruct (Hw v) as [Hrep Hkind].
    unfold touch.
    destruct (bool_decide (vartype (vars a v) = ORC_VAR_TYPE_DEST)) eqn:Hd;
      destruct (used (vars a v)) eqn:Hu;
      destruct (bool_decide (vartype (vars a v) = ORC_VAR_TYPE_TEMP)) eqn:Ht;
      repeat (progress (simpl_fields; cbn [negb andb];
                        rewrite ?upd_eq, ?Hrep, ?Hu, ?Hd, ?Ht)).
    all: split_and!; try done.
    all: intros w; destruct (Z.eq_dec w v) as [->|Hne];
      repeat (progress (simpl_fields; cbn [negb andb];
                        rewrite ?upd_eq, ?Hu, ?Hd, ?Ht));
      rewrite ?upd_ne by done; done.
  - unfold rewrite_vars_slot, rewrite_vars_dest, slot_var. rewrite Hi.
    destruct (_ =? 0) eqn:Hsz; [done|].
    set (v := dest_args (l !!! j) !!! k).
    destruct (Hw v) as [Hrep Hkind].
    assert (Htemp : vartype (vars a v) <> ORC_VAR_TYPE_TEMP).
    { rewrite Hkind. apply Hnt; [done|]. by apply Z.eqb_neq. }
    set (a2 := if negb _ then _ else _).
    assert (Ha2 : vars a2 = vars a /\ insns a2 = insns a /\
                  n_temp_vars a2 = n_temp_vars a /\
                  n_dup_vars a2 = n_dup_vars a).
    { subst a2. unfold dest_check.
      repeat match goal with |- context [if ?b then _ else _] => destruct b end;
        done. }
    destruct Ha2 as (Hv2 & Hi2 & Ht2 & Hd2).
    rewrite Hv2, Hrep. unfold touch. cbn [andb]. cbv iota beta.
    rewrite Hv2, (bool_decide_eq_false_2 _ Htemp).
    destruct (used (vars a v)) eqn:Hu;
      repeat (progress (simpl_fields; cbn [negb andb];
                        rewrite ?upd_eq, ?Hv2, ?Hu)).
    all: split_and!; try done; try congruence.
    all: intros w; destruct (Z.eq_dec w v) as [->|Hne];
      repeat (progress (simpl_fields; cbn [negb andb];
                        rewrite ?upd_eq, ?Hv2, ?Hu));
      rewrite ?upd_ne by done; rewrite ?Hv2; done.
Qed.

Lemma run_slots_cons s ss c :
  run_slots (s :: ss) c = run_slots ss (rewrite_vars_slot s c).
Proof. done. Qed.

Lemma later_cell_upd_touch (f : Z -> OrcVariable) is_src j v w :
  later_cell (f w) (upd f v (touch is_src j (f v)) w).
Proof.
  destruct (Z.eq_dec w v) as [->|Hne].
  - rewrite upd_eq. apply later_cell_touch.
  - rewrite upd_ne by done. apply later_cell_refl.
Qed.

Lemma rewrite_vars_slot_later l kind s a w :
  slot_ok s ->
  unrenamed l kind a ->
  no_temp_dest l kind ->
  later_cell (vars a w) (vars (rewrite_vars_slot s a) w).
Proof.
  intros Hok Hun Hnt.
  destruct (rewrite_vars_slot_unrenamed l kind s a Hok Hun Hnt)
    as (_ & _ & _ & Hv).
  rewrite Hv. destruct (slot_var l s) as [[[is_src j] v]|].
  - apply later_cell_upd_touch.
  - apply later_cell_refl.
Qed.

Lemma rewrite_vars_slot_keeps_unrenamed l kind s a :
  slot_ok s ->
  unrenamed l kind a ->
  no_temp_dest l kind ->
  unrenamed l kind (rewrite_vars_slot s a).
Proof.
  intros Hok Hun Hnt.
  destruct (rewrite_vars_slot_unrenamed l kind s a Hok Hun Hnt)
    as (Hi & _ & _ & _).
  destruct Hun as [Hl Hw]. split; [congruence|]. intros w.
  pose proof (rewrite_vars_slot_later l kind s a w Hok (conj Hl Hw) Hnt)
    as (_ & _ & Hk & Hr & _).
  destruct (Hw w). split; congruence.
Qed.

Lemma run_slots_keeps_unrenamed l kind ss a :
  Forall slot_ok ss ->
  unrenamed l kind a ->
  no_temp_dest l kind ->
  unrenamed l kind (run_slots ss a) /\
  n_dup_vars (run_slots ss a) = n_dup_vars a /\
  forall w, later_cell (vars a w) (vars (run_slots ss a) w).
Proof.
  intros Hok Hun Hnt. revert a Hun.
  induction Hok as [|s ss Hs Hss IH]; intros a Hun.
  - split_and!; [done|done|]. intros w. apply later_cell_refl.
  - rewrite run_slots_cons.
    destruct (IH _ (rewrite_vars_slot_keeps_unrenamed l kind s a Hs Hun Hnt))
      as (H1 & H2 & H3).
    split_and!; [done| |].
    + rewrite H2.
      by destruct (rewrite_vars_slot_unrenamed l kind s a Hs Hun Hnt)
        as (_ & ? & _).
    + intros w. eapply later_cell_trans; [|apply H3].
      by eapply rewrite_vars_slot_later.
Qed.

Lemma pass_slots_ok n : Forall slot_ok (pass_slots n).
Proof.
  unfold pass_slots. apply Forall_flat_map, Forall_forall. intros j _.
  unfold insn_slots. apply Forall_app. split; apply Forall_map, Forall_forall;
    intros k Hk; apply elem_of_seq in Hk; simpl; lia.
Qed.

(** The second run, visit by visit, against the first. *)
Lemma second_run_follows l kind ss a b :
  Forall slot_ok ss ->
  unrenamed l kind a ->
  no_temp_dest l kind ->
  insns b = insns a ->
  n_dup_vars b = n_dup_vars a ->
  (forall w,
     second_run_cell (vars (run_slots ss a) w) (vars a w) (vars b w)) ->
  insns (run_slots ss b) = insns (run_slots ss a) /\
  n_dup_vars (run_slots ss b) = n_dup_vars (run_slots ss a) /\
  forall w, vars (run_slots ss b) w = vars (run_slots ss a) w.
Proof.
  intros Hok Hun Hnt. revert a b Hun.
  induction Hok as [|s ss Hs Hss IH]; intros a b Hun Hi Hd Hcell.
  - split_and!; [done|done|]. intros w.
    by apply second_run_cell_start.
  - assert (Hunb : unrenamed l kind b).
    { destruct Hun as [Hl Hw]. split; [congruence|]. intros w.
      destruct (run_slots_keeps_unrenamed l kind (s :: ss) a
                  (Forall_cons_2 _ _ _ Hs Hss) (conj Hl Hw) Hnt)
        as (_ & _ & Hlater).
      destruct (Hlater w) as (_ & _ & Hk & Hr & _).
      destruct (Hw w). rewrite (Hcell w). simpl_fields.
      split; congruence. }
    destruct (rewrite_vars_slot_unrenamed l kind s a Hs Hun Hnt)
      as (Hia & Hda & _ & Hva).
    destruct (rewrite_vars_slot_unrenamed l kind s b Hs Hunb Hnt)
      as (Hib & Hdb & _ & Hvb).
    rewrite !run_slots_cons. setoid_rewrite run_slots_cons in Hcell.
    apply IH.
    + by apply rewrite_vars_slot_keeps_unrenamed.
    + congruence.
    + congruence.
    + intros w. rewrite Hva, Hvb.
      destruct (slot_var l s) as [[[is_src j] v]|]; [|apply Hcell].
      destruct (Z.eq_dec w v) as [->|Hne].
      * rewrite !upd_eq. apply second_run_cell_touch; [|apply Hcell].
        destruct (run_slots_keeps_unrenamed l kind ss (rewrite_vars_slot s a))
          as (_ & _ & Hlater);
          [done|by apply rewrite_vars_slot_keeps_unrenamed|done|].
        specialize (Hlater v). rewrite Hva in Hlater.
        simpl in Hlater. by rewrite upd_eq in Hlater.
      * rewrite !upd_ne by done. apply Hcell.
Qed.

(** C7, amended.  If the pass starts on a context in which no variable is
    marked used or replaced and no dest slot of non-zero declared size
    holds a Temp, then it creates no duplicate and rewrites no slot, and a
    second run on its output performs no rewrites either: no duplicate is
    created, no slot is changed and no field of a variable is modified. *)
Theorem rewrite_vars_twice_without_temp_dest (c : OrcCompiler) :
  (forall w, used (vars c w) = false /\ replaced (vars c w) = false) ->
  no_temp_dest (insns c) (fun w => vartype (vars c w)) ->
  let c1 := orc_compiler_rewrite_vars c in
  let c2 := orc_compiler_rewrite_vars c1 in
  (n_dup_vars c1 = n_dup_vars c /\ insns c1 = insns c) /\
  n_dup_vars c2 = n_dup_vars c1 /\
  insns c2 = insns c1 /\
  forall w, vars c2 w = vars c1 w.
Proof.
  intros Hfresh Hnt c1 c2.
  assert (Hun : unrenamed (insns c) (fun w => vartype (vars c w)) c).
  { split; [done|]. intros w. by destruct (Hfresh w). }
  assert (Hc1 : c1 = run_slots (pass_slots (n_insns c)) c).
  { apply rewrite_vars_pass_slots. }
  destruct (run_slots_keeps_unrenamed _ _ (pass_slots (n_insns c)) c
              (pass_slots_ok _) Hun Hnt)
    as ([Hi1 _] & Hd1 & _).
  rewrite <- Hc1 in Hi1, Hd1.
  assert (Hc2 : c2 = run_slots (pass_slots (n_insns c)) c1).
  { unfold c2, orc_compiler_rewrite_vars.
    rewrite rewrite_vars_pass_slots. unfold n_insns. by rewrite Hi1. }
  split; [done|].
  assert (Hcell : forall w,
    second_run_cell (vars (run_slots (pass_slots (n_insns c)) c) w)
      (vars c w) (vars c1 w)).
  { intros w. rewrite <- Hc1. unfold second_run_cell.
    destruct (Hfresh w) as [-> _]. by destruct (vars c1 w). }
  pose proof (second_run_follows (insns c) (fun w => vartype (vars c w))
                (pass_slots (n_insns c)) c c1 (pass_slots_ok _) Hun Hnt
                Hi1 Hd1 Hcell) as H.
  rewrite <- Hc1, <- Hc2 in H. destruct H as (? & ? & ?). done.
Qed.

Lemma rewrite_vars_twice_without_temp_dest_witness :
  let c := context_before_init scalar_program 0 in
  let c1 := orc_compiler_rewrite_vars c in
  let c2 := orc_compiler_rewrite_vars c1 in
  (n_dup_vars c1 = n_dup_vars c /\ insns c1 = insns c) /\
  n_dup_vars c2 = n_dup_vars c1 /\
  insns c2 = insns c1 /\
  forall w, vars c2 w = vars c1 w.
Proof.
  intros c. apply (rewrite_vars_twice_without_temp_dest c).
  - intros w. cbv -[Z.eqb].
    repeat match goal with |- context [Z.eqb ?a ?b] => destruct (Z.eqb a b) end;
      done.
  - intros j k. change (insns c) with [insn2 shlw ORC_VAR_D1 ORC_VAR_S1 ORC_VAR_C1].
    destruct j as [|j].
    + destruct k as [|[|k]]; vm_compute; intros H0 H1 H2;
        first [discriminate H2 | by destruct H1 | lia].
    + replace ([insn2 shlw ORC_VAR_D1 ORC_VAR_S1 ORC_VAR_C1] !!! S j)
        with zero_instruction by (by destruct j).
      destruct k as [|[|k]]; vm_compute; intros H0 H1 H2;
        first [discriminate H2 | by destruct H1 | lia].
Defined.


(** ** C4: the refcounts after the local pass *)

(** Scenario 1 through the driver: the pointer registers of D1 and S1
    come from the global pass and stay held; the vector register of the
    chained pair is taken and given back. *)
Example local_pass_copy :
  let target := sample_target ORC_VEC_REG_BASE in
  let c := before_local_pass target copyw_program in
  let c' := orc_compiler_rewrite_vars2 target c in
  error c' = false /\
  (ptr_register (vars c' ORC_VAR_D1), ptr_register (vars c' ORC_VAR_S1)) =
    (32, 33) /\
  (alloc (vars c' ORC_VAR_D1), alloc (vars c' ORC_VAR_S1)) = (64, 64) /\
  (alloc_regs c 32, alloc_regs c 33, alloc_regs c 64) = (1, 1, 0) /\
  (alloc_regs c' 32, alloc_regs c' 33, alloc_regs c' 64) = (1, 1, 0) /\
  used_regs c' 64 = 1.
Proof. vm_compute. done. Qed.


(** Outside the contexts of the amended claim: when a destination is
    written twice and both writes chain, the second chaining overwrites the
    register of D1 while D1 still holds a reference, and the refcount of
    register 64 stays at 1 although no variable holds it at the end. *)
Example local_pass_dest_written_twice :
  let target := sample_target ORC_VEC_REG_BASE in
  let c := before_local_pass target dest_twice_program in
  let c' := orc_compiler_rewrite_vars2 target c in
  error c' = false /\
  local_pass_ready target c = false /\
  (alloc_regs c 64, alloc_regs c 65) = (0, 0) /\
  (alloc_regs c' 64, alloc_regs c' 65) = (1, 0) /\
  alloc (vars c' ORC_VAR_D1) = 65.
Proof. vm_compute. done. Qed.



























